(** * LLM Toolbox (streamlit-example-1.py): connection manager, response
    streamer and document reader, embedded as Rocq functions.

    The Python script keeps its configuration in the process-wide
    [st.session_state], talks to an Ollama server through [ollama.Client],
    and reports to the user through Streamlit calls.  The embedding makes
    all three explicit: the session state is a record, the server is an
    interface whose answers may change from call to call, and every
    Streamlit call and every client call is appended to a trace.

    Conventions.
    - A Python [str] is a Rocq [string] holding its UTF-8 encoding.
    - Exceptions are those caught by [except Exception]; the script only
      ever looks at [str(e)].
    - Streamlit calls themselves do not raise, with one exception:
      [st.file_uploader] checks the upload against its [type] list and
      raises for a file it does not accept (see the page below). *)

From Stdlib Require Import ZArith Ascii String List Lia.
From Stdlib Require Import Strings.Byte.
From stdpp Require Import base tactics option list gmap strings pretty.

Local Open Scope string_scope.
Local Open Scope list_scope.

(** ** Python values *)

(** An exception object, observed through [str(e)] only. *)
Record exn := Exception { exn_str : string }.

(** Outcome of a Python expression: a value, or a raised exception. *)
Inductive Result (A : Type) :=
| Ok (a : A)
| Raise (e : exn).
Arguments Ok {A} a.
Arguments Raise {A} e.

(** The newline of the f-string at lines 86-88. *)
Definition nl : string := String (ascii_of_nat 10) EmptyString.

(** [f"{x}"] for a value that is [None] or a string. *)
Definition format_opt (x : option string) : string :=
  match x with
  | Some s => s
  | None => "None"
  end.

(** Truthiness of a value that is [None] or a string: only a non-empty
    string is true. *)
Definition truthy (x : option string) : bool :=
  match x with
  | Some s => negb (String.eqb s "")
  | None => false
  end.

(** A UTF-8 continuation byte, [10xxxxxx]. *)
Definition is_continuation (c : ascii) : bool :=
  let n := N_of_ascii c in (128 <=? n)%N && (n <? 192)%N.

(** [len(s)]: the number of code points, i.e. of bytes that do not continue
    a multi-byte sequence. *)
Definition py_len (s : string) : nat :=
  length (filter (fun c => is_continuation c = false) (list_ascii_of_string s)).

(** [str.lower()], exact on ASCII text: only the letters A-Z change.
    Python also folds capital letters outside ASCII, which this function
    leaves as they are; what is stated about the lower-cased text itself
    is therefore stated for ASCII text.  Which extension of the script's
    lists a name has is not affected: those extensions are ASCII, the only
    letters outside ASCII that Python folds into ASCII are U+212A (to k)
    and U+0130 (to i and a combining dot), no extension of the lists has a
    k or an i, and in the UTF-8 representation every other letter keeps
    bytes outside the ASCII range either way. *)
Definition lower_ascii (c : ascii) : ascii :=
  let n := N_of_ascii c in
  if (65 <=? n)%N && (n <=? 90)%N then ascii_of_N (n + 32) else c.

Definition lower (s : string) : string :=
  string_of_list_ascii (lower_ascii <$> list_ascii_of_string s).

(** [sep.join(l)]. *)
Definition join (sep : string) (l : list string) : string := String.concat sep l.

(** ** [os.path.splitext] (posixpath) *)

(** [p.rfind(c)] for a one-character needle: the highest index holding [c],
    or [-1]. *)
Fixpoint rfind_from (c : ascii) (p : list ascii) (i last : Z) : Z :=
  match p with
  | [] => last
  | a :: t => rfind_from c t (i + 1) (if Ascii.eqb a c then i else last)
  end.

Definition rfind (c : ascii) (p : list ascii) : Z := rfind_from c p 0 (-1).

(** The loop of [genericpath._splitext] that skips leading dots:
    [while filenameIndex < dotIndex], one character per round; [true] when
    the loop body returns the split, [false] when the loop runs out. *)
Fixpoint skip_leading_dots (p : list ascii) (filenameIndex : Z) (rounds : nat) : bool :=
  match rounds with
  | O => false
  | S k =>
      match p !! Z.to_nat filenameIndex with
      | Some c =>
          if Ascii.eqb c "."%char then skip_leading_dots p (filenameIndex + 1) k
          else true
      | None => true
      end
  end.

Definition splitext_list (p : list ascii) : list ascii * list ascii :=
  let sepIndex := rfind "/"%char p in
  let dotIndex := rfind "."%char p in
  if (sepIndex <? dotIndex)%Z
     && skip_leading_dots p (sepIndex + 1) (Z.to_nat (dotIndex - (sepIndex + 1)))
  then (take (Z.to_nat dotIndex) p, drop (Z.to_nat dotIndex) p)
  else (p, []).

Definition splitext (p : string) : string * string :=
  let '(root, ext) := splitext_list (list_ascii_of_string p) in
  (string_of_list_ascii root, string_of_list_ascii ext).

(** ** The outside world *)

(** An [ollama.Client] object: the host it is bound to, and the identity
    of the object (each constructor call makes a new one). *)
Record Client := { client_host : string; client_id : nat }.

(** A chunk of a streamed answer: a dict from field names to text. *)
Abbreviation Chunk := (gmap string string).

(** What iterating over [client.generate(..., stream=True)] delivers: the
    chunks, then either the end of the stream or an exception.  An
    exception on opening the stream is a failure after no chunk. *)
Record Stream := { chunks : list Chunk; failure : option exn }.

(** The Ollama client library and the server behind it.  Constructing a
    client performs no request: whether [Client(host=...)] raises depends
    on the host string alone.  [show] and [generate] are requests sent to
    the client's host; their answers depend on the server's state, which
    they may change. *)
Class Server (W : Type) := {
  Client_init (host : string) : option exn;
  Client_show (host model : string) : W -> option exn * W;
  Client_generate (host model prompt : string) (system : option string) : W -> Stream * W
}.

(** [bytes.decode("utf-8")]. *)
Class Codec := {
  decode_utf8 : list byte -> Result string
}.

(** PyPDF2: [PdfReader(f).pages] and [page.extract_text()]. *)
Class PdfLibrary := {
  Page : Type;
  PdfReader_pages : list byte -> Result (list Page);
  extract_text : Page -> Result string
}.

(** A Streamlit [UploadedFile], freshly uploaded: its name and what
    [read()] returns. *)
Record UploadedFile := { name : string; data : list byte }.

(** ** Session state and trace *)

(** The dict stored in [last_successful_config]. *)
Record Config := { host : string; model : string }.

Record SessionState := {
  ollama_host : string;
  ollama_model : string;
  ollama_client : option Client;
  connection_status : string;
  last_successful_config : option Config
}.

(** Lines 7-16. *)
Definition initial_session : SessionState :=
  {| ollama_host := "http://localhost:11434";
     ollama_model := "llama3.2";
     ollama_client := None;
     connection_status := "Not Connected";
     last_successful_config := None |}.

(** Everything the script does that is visible outside it, in order. *)
Inductive event :=
| EvClient (host : string)
| EvShow (c : Client) (model : string)
| EvGenerate (c : Client) (model prompt : string) (system : option string)
| EvWarning (msg : string)
| EvError (msg : string)
| EvEmpty
| EvMarkdown (text : string)
| EvExpander (label : string)
| EvCode (text : string).

Record State (W : Type) := {
  session : SessionState;
  world : W;
  next_id : nat;
  trace : list event
}.
Arguments session {W} _.
Arguments world {W} _.
Arguments next_id {W} _.
Arguments trace {W} _.

(** ** The monad of the script: state, plus exceptions that keep the state *)

Definition M (W A : Type) : Type := State W -> Result A * State W.

Definition ret {W A} (a : A) : M W A := fun s => (Ok a, s).

Definition raise {W A} (e : exn) : M W A := fun s => (Raise e, s).

Definition bind {W A B} (m : M W A) (k : A -> M W B) : M W B :=
  fun s =>
    match m s with
    | (Ok a, s') => k a s'
    | (Raise e, s') => (Raise e, s')
    end.

(** [try: m  except Exception as e: h e]. *)
Definition try_except {W A} (m : M W A) (h : exn -> M W A) : M W A :=
  fun s =>
    match m s with
    | (Ok a, s') => (Ok a, s')
    | (Raise e, s') => h e s'
    end.

(** A library call that touches no state. *)
Definition lift {W A} (r : Result A) : M W A := fun s => (r, s).

Notation "'let*' x := m 'in' k" := (bind m (fun x => k))
  (at level 10, x pattern, m at level 100, k at level 200).
Notation "m ;; k" := (bind m (fun _ => k))
  (at level 100, k at level 200, right associativity).

(** The state once one more event has happened. *)
Definition after {W} (e : event) (s : State W) : State W :=
  {| session := session s; world := world s;
     next_id := next_id s; trace := trace s ++ [e] |}.

(** The state once the events [evs] have happened and the server has
    moved to [w]. *)
Definition advance {W} (w : W) (evs : list event) (s : State W) : State W :=
  {| session := session s; world := w;
     next_id := next_id s; trace := trace s ++ evs |}.

Definition emit {W} (e : event) : M W unit :=
  fun s => (Ok tt, after e s).

Definition get {W A} (field : SessionState -> A) : M W A :=
  fun s => (Ok (field (session s)), s).

Definition modify {W} (f : SessionState -> SessionState) : M W unit :=
  fun s => (Ok tt, {| session := f (session s); world := world s;
                      next_id := next_id s; trace := trace s |}).

Definition set_ollama_host (v : string) (ss : SessionState) : SessionState :=
  {| ollama_host := v; ollama_model := ollama_model ss;
     ollama_client := ollama_client ss;
     connection_status := connection_status ss;
     last_successful_config := last_successful_config ss |}.

Definition set_ollama_model (v : string) (ss : SessionState) : SessionState :=
  {| ollama_host := ollama_host ss; ollama_model := v;
     ollama_client := ollama_client ss;
     connection_status := connection_status ss;
     last_successful_config := last_successful_config ss |}.

Definition set_ollama_client (v : option Client) (ss : SessionState) : SessionState :=
  {| ollama_host := ollama_host ss; ollama_model := ollama_model ss;
     ollama_client := v;
     connection_status := connection_status ss;
     last_successful_config := last_successful_config ss |}.

Definition set_connection_status (v : string) (ss : SessionState) : SessionState :=
  {| ollama_host := ollama_host ss; ollama_model := ollama_model ss;
     ollama_client := ollama_client ss;
     connection_status := v;
     last_successful_config := last_successful_config ss |}.

Definition set_last_successful_config (v : option Config) (ss : SessionState) : SessionState :=
  {| ollama_host := ollama_host ss; ollama_model := ollama_model ss;
     ollama_client := ollama_client ss;
     connection_status := connection_status ss;
     last_successful_config := v |}.

(** Streamlit calls. *)
Definition st_warning {W} (msg : string) : M W unit := emit (EvWarning msg).
Definition st_error {W} (msg : string) : M W unit := emit (EvError msg).
Definition st_empty {W} : M W unit := emit EvEmpty.
Definition markdown {W} (text : string) : M W unit := emit (EvMarkdown text).
Definition st_expander {W} (label : string) : M W unit := emit (EvExpander label).
Definition st_code {W} (text : string) : M W unit := emit (EvCode text).

(** ** The script's functions *)

Section Script.
Context {W : Type} {srv : Server W} {codec : Codec} {pdf : PdfLibrary}.

(** [Client(host=host)]: raises on a host the library rejects, otherwise
    makes a new client object. *)
Definition Client_new (host : string) : M W Client :=
  fun s =>
    let tr := trace s ++ [EvClient host] in
    match Client_init host with
    | Some e =>
        (Raise e, {| session := session s; world := world s;
                     next_id := next_id s; trace := tr |})
    | None =>
        (Ok {| client_host := host; client_id := next_id s |},
         {| session := session s; world := world s;
            next_id := S (next_id s); trace := tr |})
    end.

(** [client.show(model)]. *)
Definition show (client : Client) (model : string) : M W unit :=
  fun s =>
    let '(r, w) := Client_show (client_host client) model (world s) in
    let s' := {| session := session s; world := w; next_id := next_id s;
                 trace := trace s ++ [EvShow client model] |} in
    match r with
    | Some e => (Raise e, s')
    | None => (Ok tt, s')
    end.

(** Lines 19-32. *)
Definition initialize_ollama_client (host model : string) : M W (bool * option string) :=
  try_except
    (let* client := Client_new host in
     show client model ;;
     ret (true, None))
    (fun e => ret (false, Some ("Unexpected error: " +:+ exn_str e))).

(** Lines 35-54. *)
Definition update_connection : M W unit :=
  let* h := get ollama_host in
  let* m := get ollama_model in
  let* (success, error) := initialize_ollama_client h m in
  if success : bool then
    let* h := get ollama_host in
    let* client := Client_new h in
    modify (set_ollama_client (Some client)) ;;
    modify (set_connection_status "Connected") ;;
    let* h := get ollama_host in
    let* m := get ollama_model in
    modify (set_last_successful_config (Some {| host := h; model := m |}))
  else
    modify (set_ollama_client None) ;;
    modify (set_connection_status ("Connection Failed: " +:+ format_opt error)).

(** Lines 148-151, the body of the Connect button: [connect(host, model)]. *)
Definition connect (new_host new_model : string) : M W unit :=
  modify (set_ollama_host new_host) ;;
  modify (set_ollama_model new_model) ;;
  update_connection.

(** [st.session_state.ollama_client.generate]: the attribute lookup, which
    raises on [None]. *)
Definition generate_method (client : option Client) : M W Client :=
  match client with
  | Some c => ret c
  | None => raise (Exception "'NoneType' object has no attribute 'generate'")
  end.

(** The call at lines 72-77: the request goes out, the stream comes back. *)
Definition generate (client : Client) (model prompt : string) (system : option string)
  : M W Stream :=
  fun s =>
    let '(stream, w) :=
      Client_generate (client_host client) model prompt system (world s) in
    (Ok stream, {| session := session s; world := w; next_id := next_id s;
                   trace := trace s ++ [EvGenerate client model prompt system] |}).

(** The body of the [for] loop, lines 78-81, over the chunks delivered. *)
Fixpoint for_chunk (cs : list Chunk) (full_response : string) : M W string :=
  match cs with
  | [] => ret full_response
  | chunk :: rest =>
      match chunk !! "response" with
      | Some text =>
          let full_response := full_response +:+ text in
          markdown full_response ;;
          for_chunk rest full_response
      | None => for_chunk rest full_response
      end
  end.

(** How the iteration over the stream ends. *)
Definition end_of_stream (stream : Stream) : M W unit :=
  match failure stream with
  | Some e => raise e
  | None => ret tt
  end.

(** Line 75: [system_prompt if system_prompt else None]. *)
Definition system_arg (system_prompt : option string) : option string :=
  if truthy system_prompt then system_prompt else None.

(** [len(system_prompt)], line 88. *)
Definition len_opt (x : option string) : M W nat :=
  match x with
  | Some s => ret (py_len s)
  | None => raise (Exception "object of type 'NoneType' has no len()")
  end.

(** Lines 57-94. *)
Definition generate_ollama_response (user_prompt : string) (system_prompt : option string)
  : M W unit :=
  if String.eqb user_prompt "" then
    st_warning "Please enter a prompt before generating."
  else
    try_except
      (st_empty ;;
       let full_response := "" in
       let* client := get ollama_client in
       let* client := generate_method client in
       let* m := get ollama_model in
       let* stream := generate client m user_prompt (system_arg system_prompt) in
       let* full_response := for_chunk (chunks stream) full_response in
       end_of_stream stream ;;
       st_expander "Debug Information" ;;
       let* m := get ollama_model in
       let* h := get ollama_host in
       let* n_system := len_opt system_prompt in
       st_code ("Model: " +:+ m +:+ nl +:+
                "Host: " +:+ h +:+ nl +:+
                "System Prompt Length: " +:+ pretty n_system +:+ nl +:+
                "User Prompt Length: " +:+ pretty (py_len user_prompt)))
      (fun e =>
         st_error ("An error occurred while generating: " +:+ exn_str e) ;;
         update_connection).

(** Line 104. *)
Definition text_extensions : list string :=
  [".txt"; ".md"; ".js"; ".py"; ".cs"; ".go"; ".html"; ".css"; ".xml"; ".json"].

(** Line 102. *)
Definition file_extension_of (uploaded_file : UploadedFile) : string :=
  lower (snd (splitext (name uploaded_file))).

(** [pdf_reader.pages[page_num]]. *)
Definition page_at (pages : list Page) (page_num : nat) : M W Page :=
  match pages !! page_num with
  | Some page => ret page
  | None => raise (Exception "sequence index out of range")
  end.

(** Lines 116-118, over the page numbers of [range(len(pdf_reader.pages))]. *)
Fixpoint for_page_num (pages : list Page) (page_nums : list nat) (text : string)
  : M W string :=
  match page_nums with
  | [] => ret text
  | page_num :: rest =>
      let* page := page_at pages page_num in
      let* t := lift (extract_text page) in
      for_page_num pages rest (text +:+ t)
  end.

(** The message of line 124. *)
Definition unsupported_message : string :=
  "Unsupported file type. Please upload TXT, PDF, MD, or code files ("
  +:+ join ", " (drop 2 text_extensions) +:+ ").".

(** Lines 97-125. *)
Definition read_document_content (uploaded_file : UploadedFile) : M W (option string) :=
  let file_extension := file_extension_of uploaded_file in
  if decide (file_extension ∈ text_extensions) then
    try_except
      (let* s := lift (decode_utf8 (data uploaded_file)) in
       ret (Some s))
      (fun e =>
         st_error ("Error reading text-based content: " +:+ exn_str e) ;;
         ret None)
  else if decide (file_extension = ".pdf") then
    try_except
      (let* pages := lift (PdfReader_pages (data uploaded_file)) in
       let text := "" in
       let* text := for_page_num pages (seq 0 (length pages)) text in
       ret (Some text))
      (fun e =>
         st_error ("Error reading PDF content: " +:+ exn_str e) ;;
         ret None)
  else
    st_warning unsupported_message ;;
    ret None.

End Script.

(** ** Observations on traces and texts, used to state the properties *)

(** The events a run from [s] to [s'] has added. *)
Definition emitted {W} (s s' : State W) : list event :=
  drop (length (trace s)) (trace s').

Definition is_generate (ev : event) : bool :=
  match ev with EvGenerate _ _ _ _ => true | _ => false end.

Definition is_show (ev : event) : bool :=
  match ev with EvShow _ _ => true | _ => false end.

Definition is_warning (ev : event) : bool :=
  match ev with EvWarning _ => true | _ => false end.

Definition is_error (ev : event) : bool :=
  match ev with EvError _ => true | _ => false end.

(** The texts shown in the response container, in order. *)
Definition markdowns (evs : list event) : list string :=
  omap (fun ev => match ev with EvMarkdown t => Some t | _ => None end) evs.

(** The response texts of the chunks that carry one, in order. *)
Definition responses (cs : list Chunk) : list string :=
  omap (fun chunk : Chunk => chunk !! "response") cs.

(** The full text after the first [k] responses, and the list of these
    for [k = 1 .. length rs]. *)
Definition text_so_far (acc : string) (rs : list string) (k : nat) : string :=
  acc +:+ String.concat "" (take k rs).

Definition texts_so_far (acc : string) (rs : list string) : list string :=
  text_so_far acc rs <$> seq 1 (length rs).

(** A reconnect attempt for [(host, model)]: what [update_connection] may
    add to the trace.  The probe client is constructed, then at most one
    [show] request goes to that host for that model, then on success the
    client to keep is constructed. *)
Definition reconnect_attempt (host model : string) (evs : list event) : Prop :=
  evs = [EvClient host]
  \/ (exists c, client_host c = host /\ evs = [EvClient host; EvShow c model])
  \/ (exists c, client_host c = host /\ evs = [EvClient host; EvShow c model; EvClient host]).

(** Every client object made so far has an identity below the counter. *)
Definition client_known {W} (s : State W) : Prop :=
  forall c, ollama_client (session s) = Some c -> client_id c < next_id s.

(** A prompt made of white space only, and not empty. *)
Definition whitespace_only (s : string) : Prop :=
  s <> "" /\ Forall (fun c => Ascii.is_space c = true) (list_ascii_of_string s).

(** ASCII text: every byte is below 128. *)
Definition is_ascii_text (s : string) : Prop :=
  Forall (fun c => (N_of_ascii c < 128)%N) (list_ascii_of_string s).

(** A letter or a digit. *)
Definition is_word_char (c : ascii) : bool :=
  let n := N_of_ascii c in
  ((48 <=? n)%N && (n <=? 57)%N)
  || ((65 <=? n)%N && (n <=? 90)%N)
  || ((97 <=? n)%N && (n <=? 122)%N).

(** The words of a text: its maximal runs of letters and digits. *)
Fixpoint words_of (cs : list ascii) (word : list ascii) : list string :=
  match cs with
  | [] => if word is [] then [] else [string_of_list_ascii (rev word)]
  | c :: rest =>
      if is_word_char c then words_of rest (c :: word)
      else if word is [] then words_of rest []
           else string_of_list_ascii (rev word) :: words_of rest []
  end.

(** The message names an extension when the extension without its dot is
    one of the words of the message, in either case. *)
Definition names_extension (msg ext : string) : bool :=
  match ext with
  | String _ bare =>
      bool_decide (lower bare ∈ words_of (list_ascii_of_string (lower msg)) [])
  | EmptyString => false
  end.

(** ** The page: lines 128-221, run once per interaction *)

(** The Streamlit calls of the page itself, with the arguments the script
    passes.  [with st.sidebar:] only places what is drawn and is left out. *)
Inductive widget :=
| WPageConfig (layout : string)
| WTitle (text : string)
| WDivider
| WTextInput (label value help : string)
| WButton (label : string)
| WMarkdown (text : string)
| WRadio (label : string) (options : list string) (key : string)
| WHeader (text : string)
| WTextArea (label : string) (height : nat) (value help : option string)
| WFileUploader (label : string) (type : list string) (help : string)
| WSubheader (text : string)
| WInfo (text : string)
| WShown (ev : event).

(** What the input widgets return in one run of the script.  The call of
    [st.file_uploader] may also raise: Streamlit checks the name of the
    upload against the [type] list on its side and raises for a file it
    does not accept.  That check is Streamlit's, not the script's, so the
    outcome of the call, a value or an exception, is an input of the run. *)
Record Inputs := {
  new_host : string;
  new_model : string;
  connect_pressed : bool;
  tab_selection : string;
  system_prompt : string;
  user_prompt : string;
  generate_pressed : bool;
  uploaded_file : Result (option UploadedFile);
  summary_pressed : bool
}.

(** A run of the script: the state of the functions above, and the page
    drawn so far, on which what those functions show appears in place. *)
Record Run (W : Type) := { core : State W; page : list widget }.
Arguments core {W} _.
Arguments page {W} _.

Definition Script (W A : Type) : Type := Run W -> Result A * Run W.

Definition script_ret {W A} (a : A) : Script W A := fun r => (Ok a, r).

Definition script_bind {W A B} (m : Script W A) (k : A -> Script W B) : Script W B :=
  fun r =>
    match m r with
    | (Ok a, r') => k a r'
    | (Raise e, r') => (Raise e, r')
    end.

Notation "'let+' x := m 'in' k" := (script_bind m (fun x => k))
  (at level 10, x pattern, m at level 100, k at level 200).
Notation "m ;;; k" := (script_bind m (fun _ => k))
  (at level 100, k at level 200, right associativity).

Definition draw {W} (w : widget) : Script W unit :=
  fun r => (Ok tt, {| core := core r; page := page r ++ [w] |}).

(** [st.file_uploader(label, type=..., help=...)] with the outcome the
    run has for it: the widget is drawn and its value returned, or the
    exception is raised while the widget is set up, before it is drawn. *)
Definition file_uploader {W} (label : string) (type : list string) (help : string)
    (outcome : Result (option UploadedFile)) : Script W (option UploadedFile) :=
  match outcome with
  | Ok file => draw (WFileUploader label type help) ;;; script_ret file
  | Raise e => fun r => (Raise e, r)
  end.

(** A call of one of the functions above, or an access to the session
    state. *)
Definition call {W A} (m : M W A) : Script W A :=
  fun r =>
    let '(x, s') := m (core r) in
    (x, {| core := s'; page := page r ++ (WShown <$> emitted (core r) s') |}).

(** Line 154. *)
Definition status_color (connection_status : string) : string :=
  if String.eqb connection_status "Connected" then "green" else "red".

Definition no_connection_warning : string :=
  "Please establish a connection to Ollama first using the sidebar.".

(** Line 202. *)
Definition accepted_formats : list string :=
  [".pdf"; ".txt"; ".md"; ".js"; ".py"; ".cs"; ".go"; ".html"; ".css"; ".xml"; ".json"].

(** Line 210. *)
Definition summary_system_prompt : string :=
  "You are a document summarization expert. Please provide a concise and accurate summary of the document.".

(** Line 212. *)
Definition summary_user_prompt (document_content : string) : string :=
  "Analyze this document and produce an accurate and concise summary:"
  +:+ nl +:+ nl +:+ document_content.

Section PageScript.
Context {W : Type} {srv : Server W} {codec : Codec} {pdf : PdfLibrary}.

(** Lines 132-165. *)
Definition sidebar (inp : Inputs) : Script W unit :=
  draw (WTitle "LLM Toolbox") ;;;
  draw WDivider ;;;
  let+ h := call (get ollama_host) in
  draw (WTextInput "Ollama Host" h "Example: http://localhost:11434") ;;;
  let+ m := call (get ollama_model) in
  draw (WTextInput "Model Name" m "Example: llama3.2, phi4, deepseek-r1") ;;;
  draw (WButton "Connect") ;;;
  (if connect_pressed inp
   then call (connect (new_host inp) (new_model inp))
   else script_ret tt) ;;;
  let+ status := call (get connection_status) in
  let color := status_color status in
  let+ status := call (get connection_status) in
  draw (WMarkdown ("Status: :" +:+ color +:+ "[" +:+ status +:+ "]")) ;;;
  draw WDivider ;;;
  draw (WRadio "Functions" ["Query"; "Document Summary"] "tab_selector") ;;;
  draw WDivider.

(** Lines 169-191. *)
Definition query_tab (inp : Inputs) : Script W unit :=
  draw (WHeader "Query") ;;;
  let+ client := call (get ollama_client) in
  match client with
  | None => call (st_warning no_connection_warning)
  | Some _ =>
      draw (WTextArea "System Prompt" 150 (Some "You are a helpful AI assistant.")
              (Some "Provide context or instructions for the model")) ;;;
      draw (WTextArea "User Prompt" 150 None (Some "Enter your message here")) ;;;
      draw (WButton "Generate Response") ;;;
      if generate_pressed inp
      then call (generate_ollama_response (user_prompt inp) (Some (system_prompt inp)))
      else script_ret tt
  end.

(** Lines 194-221. *)
Definition document_summary_tab (inp : Inputs) : Script W unit :=
  draw (WHeader "Document Summary") ;;;
  let+ client := call (get ollama_client) in
  match client with
  | None => call (st_warning no_connection_warning)
  | Some _ =>
      let+ uploaded_file :=
        file_uploader "Upload your document" accepted_formats
          "Supported formats: .pdf, .txt, .md, .js, .py, .cs, .go, .html, .css, .xml, .json"
          (uploaded_file inp) in
      match uploaded_file with
      | Some f =>
          let+ document_content := call (read_document_content f) in
          match document_content with
          | Some content =>
              if String.eqb content "" then script_ret tt
              else
                draw (WSubheader "Document Content Preview:") ;;;
                draw (WTextArea "Document Preview" 200 (Some content) None) ;;;
                draw (WButton "Generate Summary") ;;;
                if summary_pressed inp
                then call (generate_ollama_response (summary_user_prompt content)
                             (Some summary_system_prompt))
                else script_ret tt
          | None => script_ret tt
          end
      | None => draw (WInfo "Please upload a document to summarize.")
      end
  end.

(** Lines 128-221. *)
Definition script (inp : Inputs) : Script W unit :=
  draw (WPageConfig "wide") ;;;
  sidebar inp ;;;
  if String.eqb (tab_selection inp) "Query" then query_tab inp
  else if String.eqb (tab_selection inp) "Document Summary" then document_summary_tab inp
  else script_ret tt.

(** One run on an empty page; the state of the functions is what the next
    run starts from, also when the run was cut short by an exception. *)
Definition run_script (inp : Inputs) (s : State W) : Result unit * Run W :=
  script inp {| core := s; page := [] |}.

(** The runs for a sequence of interactions, one after the other. *)
Fixpoint reruns (inputs : list Inputs) (s : State W) : State W :=
  match inputs with
  | [] => s
  | inp :: rest => reruns rest (core (snd (run_script inp s)))
  end.

(** The state in which the main area is drawn. *)
Definition after_sidebar (inp : Inputs) (s : State W) : State W :=
  if connect_pressed inp
  then snd (connect (new_host inp) (new_model inp) s)
  else s.

(** The sidebar as drawn when the session state is [ss] before the Connect
    button is looked at and [ss'] after, with [evs] shown in between. *)
Definition sidebar_page (ss ss' : SessionState) (evs : list event) : list widget :=
  [WPageConfig "wide"; WTitle "LLM Toolbox"; WDivider;
   WTextInput "Ollama Host" (ollama_host ss) "Example: http://localhost:11434";
   WTextInput "Model Name" (ollama_model ss) "Example: llama3.2, phi4, deepseek-r1";
   WButton "Connect"]
  ++ (WShown <$> evs)
  ++ [WMarkdown ("Status: :" +:+ status_color (connection_status ss')
                 +:+ "[" +:+ connection_status ss' +:+ "]");
      WDivider;
      WRadio "Functions" ["Query"; "Document Summary"] "tab_selector";
      WDivider].

End PageScript.

(** What the Query tab draws once a client is stored (lines 169-190). *)
Definition query_widgets : list widget :=
  [WHeader "Query";
   WTextArea "System Prompt" 150 (Some "You are a helpful AI assistant.")
     (Some "Provide context or instructions for the model");
   WTextArea "User Prompt" 150 None (Some "Enter your message here");
   WButton "Generate Response"].

(** What the Document Summary tab draws once a client is stored, up to
    the upload control (lines 194-204). *)
Definition upload_widgets : list widget :=
  [WHeader "Document Summary";
   WFileUploader "Upload your document" accepted_formats
     "Supported formats: .pdf, .txt, .md, .js, .py, .cs, .go, .html, .css, .xml, .json"].

(** The preview of a document that was read (lines 214-217). *)
Definition preview_widgets (content : string) : list widget :=
  [WSubheader "Document Content Preview:";
   WTextArea "Document Preview" 200 (Some content) None;
   WButton "Generate Summary"].

(** The session state tells one story: a stored client goes with the
    status [Connected], is bound to the configured host, and the last
    successful configuration is the current one; no stored client goes
    with any other status. *)
Definition coherent (ss : SessionState) : Prop :=
  match ollama_client ss with
  | Some c =>
      client_host c = ollama_host ss
      /\ connection_status ss = "Connected"
      /\ last_successful_config ss
         = Some {| host := ollama_host ss; model := ollama_model ss |}
  | None => connection_status ss <> "Connected"
  end.

(** A generation request made through client [c] for model [m]. *)
Definition request_to (host model : string) (ev : event) : Prop :=
  match ev with
  | EvGenerate c m _ _ => client_host c = host /\ m = model
  | _ => True
  end.

(** ** Concrete libraries and a scripted server, for the executable examples *)

(** Strict UTF-8 (RFC 3629), as [bytes.decode("utf-8")] checks it: no
    overlong forms, no surrogates, nothing above U+10FFFF. *)
Definition in_range (lo hi : N) (b : byte) : bool :=
  let n := Byte.to_N b in (lo <=? n)%N && (n <=? hi)%N.

Definition second_of_3 (b0 b1 : byte) : bool :=
  if in_range 224 224 b0 then in_range 160 191 b1
  else if in_range 237 237 b0 then in_range 128 159 b1
  else in_range 128 191 b1.

Definition second_of_4 (b0 b1 : byte) : bool :=
  if in_range 240 240 b0 then in_range 144 191 b1
  else if in_range 244 244 b0 then in_range 128 143 b1
  else in_range 128 191 b1.

Fixpoint utf8_valid (bs : list byte) : bool :=
  match bs with
  | [] => true
  | b0 :: r0 =>
      if in_range 0 127 b0 then utf8_valid r0
      else
        match r0 with
        | [] => false
        | b1 :: r1 =>
            if in_range 194 223 b0 then in_range 128 191 b1 && utf8_valid r1
            else
              match r1 with
              | [] => false
              | b2 :: r2 =>
                  if in_range 224 239 b0 then
                    second_of_3 b0 b1 && in_range 128 191 b2 && utf8_valid r2
                  else
                    match r2 with
                    | [] => false
                    | b3 :: r3 =>
                        in_range 240 244 b0 && second_of_4 b0 b1
                        && in_range 128 191 b2 && in_range 128 191 b3
                        && utf8_valid r3
                    end
              end
        end
  end.

Definition utf8_codec : Codec := {|
  decode_utf8 bs :=
    if utf8_valid bs then Ok (string_of_list_byte bs)
    else Raise (Exception "'utf-8' codec can't decode bytes: invalid data")
|}.

(** A miniature page-oriented format standing in for PyPDF2: the header
    [%PDF], then every page preceded by a form feed; a page's text is its
    bytes, which must be UTF-8. *)
Fixpoint split_on (sep : byte) (bs : list byte) : list (list byte) :=
  match bs with
  | [] => [[]]
  | b :: r =>
      if Byte.eqb b sep then [] :: split_on sep r
      else
        match split_on sep r with
        | p :: ps => (b :: p) :: ps
        | [] => [[b]]
        end
  end.

Definition form_feed : byte := x0c.

Definition mini_pdf : PdfLibrary := {|
  Page := list byte;
  PdfReader_pages bs :=
    match split_on form_feed bs with
    | header :: pages =>
        if String.eqb (string_of_list_byte header) "%PDF" then Ok pages
        else Raise (Exception "invalid pdf header")
    | [] => Raise (Exception "Cannot read an empty file")
    end;
  extract_text page :=
    if utf8_valid page then Ok (string_of_list_byte page)
    else Raise (Exception "cannot extract text from page")
|}.

(** A server that answers at one address and knows one model; its state
    counts the requests it has received. *)
Definition reachable (host : string) : bool :=
  String.eqb host "http://localhost:11434".

Definition scripted_server : Server nat := {|
  Client_init host :=
    if String.eqb host "http://localhost:99999"
    then Some (Exception "Port could not be cast to integer value")
    else None;
  Client_show host model n :=
    (if negb (reachable host) then Some (Exception "[Errno 111] Connection refused")
     else if String.eqb model "llama3.2" then None
     else Some (Exception ("model '" +:+ model +:+ "' not found")),
     S n);
  Client_generate host model prompt system n :=
    (if negb (reachable host) then
       {| chunks := []; failure := Some (Exception "[Errno 111] Connection refused") |}
     else if String.eqb prompt "crash" then
       {| chunks := [{["response" := "Hel"]}];
          failure := Some (Exception "peer closed connection") |}
     else
       {| chunks := [{["response" := "Hel"]}; {["done" := "false"]};
                     {["response" := "lo"]}; {["done" := "true"]}];
          failure := None |},
     S n)
|}.

Definition connected_session : SessionState :=
  {| ollama_host := "http://localhost:11434";
     ollama_model := "llama3.2";
     ollama_client := Some {| client_host := "http://localhost:11434"; client_id := 1 |};
     connection_status := "Connected";
     last_successful_config :=
       Some {| host := "http://localhost:11434"; model := "llama3.2" |} |}.

Definition start (ss : SessionState) : State nat :=
  {| session := ss; world := 0; next_id := 2; trace := [] |}.

Definition bytes_of (s : string) : list byte := list_byte_of_string s.

(** A two-page document of the miniature format. *)
Definition two_page_document : list byte :=
  bytes_of "%PDF" ++ [form_feed] ++ bytes_of "Hello, " ++ [form_feed] ++ bytes_of "world".

(** Bytes that are not UTF-8: a lone continuation byte. *)
Definition invalid_utf8 : list byte := bytes_of "ab" ++ [x80].

(** What the widgets return when the user touches nothing. *)
Definition untouched : Inputs :=
  {| new_host := "http://localhost:11434";
     new_model := "llama3.2";
     connect_pressed := false;
     tab_selection := "Query";
     system_prompt := "You are a helpful AI assistant.";
     user_prompt := "";
     generate_pressed := false;
     uploaded_file := Ok None;
     summary_pressed := false |}.

(** The user types a prompt in the Query tab and presses Generate Response. *)
Definition ask (prompt : string) : Inputs :=
  {| new_host := "http://localhost:11434";
     new_model := "llama3.2";
     connect_pressed := false;
     tab_selection := "Query";
     system_prompt := "You are a helpful AI assistant.";
     user_prompt := prompt;
     generate_pressed := true;
     uploaded_file := Ok None;
     summary_pressed := false |}.

(** The user uploads a file in the Document Summary tab and presses
    Generate Summary. *)
Definition summarize (f : UploadedFile) : Inputs :=
  {| new_host := "http://localhost:11434";
     new_model := "llama3.2";
     connect_pressed := false;
     tab_selection := "Document Summary";
     system_prompt := "You are a helpful AI assistant.";
     user_prompt := "";
     generate_pressed := false;
     uploaded_file := Ok (Some f);
     summary_pressed := true |}.

(** The user types a host and a model and presses Connect. *)
Definition connect_to (h m : string) : Inputs :=
  {| new_host := h;
     new_model := m;
     connect_pressed := true;
     tab_selection := "Query";
     system_prompt := "You are a helpful AI assistant.";
     user_prompt := "";
     generate_pressed := false;
     uploaded_file := Ok None;
     summary_pressed := false |}.

(** The user uploads a file that the upload control refuses. *)
Definition refused_upload : Inputs :=
  {| new_host := "http://elsewhere:11434";
     new_model := "phi4";
     connect_pressed := false;
     tab_selection := "Document Summary";
     system_prompt := "You are a helpful AI assistant.";
     user_prompt := "";
     generate_pressed := false;
     uploaded_file := Raise (Exception "Invalid file extension: `.png`.");
     summary_pressed := true |}.

Definition stored_client : Client :=
  {| client_host := "http://localhost:11434"; client_id := 1 |}.


(** ** Properties *)

Section Properties.
Context {W : Type} {srv : Server W} {codec : Codec} {pdf : PdfLibrary}.
Implicit Types (s : State W) (e : exn).

(** *** Strings and traces *)

Lemma append_cons a (x y : string) : String a x +:+ y = String a (x +:+ y).
Proof. reflexivity. Qed.

Lemma append_assoc (x y z : string) : (x +:+ y) +:+ z = x +:+ (y +:+ z).
Proof.
  induction x as [|a x IH]; [reflexivity|].
  rewrite !append_cons. now rewrite IH.
Qed.

Lemma append_empty_r (x : string) : x +:+ "" = x.
Proof.
  induction x as [|a x IH]; [reflexivity|].
  rewrite append_cons. now rewrite IH.
Qed.

Lemma append_nonempty (x y : string) : x <> "" -> x +:+ y <> "".
Proof. destruct x; [congruence|]. rewrite append_cons. discriminate. Qed.

Lemma concat_cons (x : string) (xs : list string) :
  String.concat "" (x :: xs) = x +:+ String.concat "" xs.
Proof.
  destruct xs as [|y ys]; cbn [String.concat].
  - now rewrite append_empty_r.
  - reflexivity.
Qed.

Lemma emitted_app s s' evs : trace s' = trace s ++ evs -> emitted s s' = evs.
Proof. intros E. unfold emitted. rewrite E. apply drop_app_length. Qed.

Lemma eqb_nonempty (x : string) : x <> "" -> String.eqb x "" = false.
Proof. intros. now apply String.eqb_neq. Qed.

(** The library models agree with Python on sample inputs. *)
Example splitext_samples :
  splitext "report.pdf" = ("report", ".pdf")
  /\ splitext "archive.tar.gz" = ("archive.tar", ".gz")
  /\ splitext ".bashrc" = (".bashrc", "")
  /\ splitext "..pdf" = ("..pdf", "")
  /\ splitext "a..pdf" = ("a.", ".pdf")
  /\ splitext "dir.d/file" = ("dir.d/file", "")
  /\ splitext "dir/.hidden.txt" = ("dir/.hidden", ".txt")
  /\ splitext "" = ("", "").
Proof. repeat split. Qed.

Example lower_samples :
  lower "Report.PDF" = "report.pdf" /\ lower "a_[Z]@`{z}" = "a_[z]@`{z}".
Proof. split; reflexivity. Qed.

Example utf8_valid_samples :
  utf8_valid [x68; xc3; xa9; xe2; x82; xac; xf0; x9f; x98; x80] = true
  /\ utf8_valid [xc0; x80] = false
  /\ utf8_valid [xed; xa0; x80] = false
  /\ utf8_valid [xf4; x90; x80; x80] = false
  /\ utf8_valid [xe2; x82] = false
  /\ utf8_valid [x80] = false.
Proof. repeat split. Qed.

Example names_extension_samples :
  names_extension "code files (.json, .css)" ".js" = false
  /\ names_extension "code files (.js, .css)" ".js" = true
  /\ names_extension "Please upload TXT or PDF" ".txt" = true
  /\ names_extension "Please upload TXTS" ".txt" = false.
Proof. repeat split. Qed.

Example py_len_sample :
  py_len (string_of_list_byte [x68; xc3; xa9; xe2; x82; xac]) = 3.
Proof. reflexivity. Qed.

(** *** Connection manager *)

Lemma Client_new_ok h s :
  Client_init h = None ->
  Client_new h s =
    (Ok {| client_host := h; client_id := next_id s |},
     {| session := session s; world := world s; next_id := S (next_id s);
        trace := trace s ++ [EvClient h] |}).
Proof. intros E. unfold Client_new. now rewrite E. Qed.

Lemma Client_new_raises h s e :
  Client_init h = Some e ->
  Client_new h s = (Raise e, after (EvClient h) s).
Proof. intros E. unfold Client_new. now rewrite E. Qed.

Lemma initialize_rejected_host h m s e :
  Client_init h = Some e ->
  initialize_ollama_client h m s =
    (Ok (false, Some ("Unexpected error: " +:+ exn_str e)), after (EvClient h) s).
Proof.
  intros E. unfold initialize_ollama_client, try_except, bind.
  now rewrite (Client_new_raises _ _ _ E).
Qed.

Lemma initialize_failed_probe h m s e w :
  Client_init h = None ->
  Client_show h m (world s) = (Some e, w) ->
  initialize_ollama_client h m s =
    (Ok (false, Some ("Unexpected error: " +:+ exn_str e)),
     {| session := session s; world := w; next_id := S (next_id s);
        trace := trace s ++ [EvClient h;
                             EvShow {| client_host := h; client_id := next_id s |} m] |}).
Proof.
  intros E1 E2. unfold initialize_ollama_client, try_except, bind.
  rewrite (Client_new_ok _ _ E1). unfold show. cbn. rewrite E2. cbn.
  unfold ret. now rewrite <- app_assoc.
Qed.

Lemma initialize_succeeds h m s w :
  Client_init h = None ->
  Client_show h m (world s) = (None, w) ->
  initialize_ollama_client h m s =
    (Ok (true, None),
     {| session := session s; world := w; next_id := S (next_id s);
        trace := trace s ++ [EvClient h;
                             EvShow {| client_host := h; client_id := next_id s |} m] |}).
Proof.
  intros E1 E2. unfold initialize_ollama_client, try_except, bind.
  rewrite (Client_new_ok _ _ E1). unfold show. cbn. rewrite E2. cbn.
  unfold ret. now rewrite <- app_assoc.
Qed.

(** The three ways [update_connection] can go. *)
Lemma update_connection_rejected_host s e :
  Client_init (ollama_host (session s)) = Some e ->
  update_connection s =
    (Ok tt,
     {| session :=
          set_connection_status
            ("Connection Failed: " +:+ "Unexpected error: " +:+ exn_str e)
            (set_ollama_client None (session s));
        world := world s; next_id := next_id s;
        trace := trace s ++ [EvClient (ollama_host (session s))] |}).
Proof.
  intros E. unfold update_connection, bind, get. cbn.
  now rewrite (initialize_rejected_host _ _ _ _ E).
Qed.

Lemma update_connection_failed_probe s e w :
  Client_init (ollama_host (session s)) = None ->
  Client_show (ollama_host (session s)) (ollama_model (session s)) (world s) = (Some e, w) ->
  update_connection s =
    (Ok tt,
     {| session :=
          set_connection_status
            ("Connection Failed: " +:+ "Unexpected error: " +:+ exn_str e)
            (set_ollama_client None (session s));
        world := w; next_id := S (next_id s);
        trace := trace s ++
          [EvClient (ollama_host (session s));
           EvShow {| client_host := ollama_host (session s); client_id := next_id s |}
                  (ollama_model (session s))] |}).
Proof.
  intros E1 E2. unfold update_connection, bind, get. cbn.
  now rewrite (initialize_failed_probe _ _ _ _ _ E1 E2).
Qed.

Lemma update_connection_succeeds s w :
  Client_init (ollama_host (session s)) = None ->
  Client_show (ollama_host (session s)) (ollama_model (session s)) (world s) = (None, w) ->
  update_connection s =
    (Ok tt,
     {| session :=
          set_last_successful_config
            (Some {| host := ollama_host (session s); model := ollama_model (session s) |})
            (set_connection_status "Connected"
               (set_ollama_client
                  (Some {| client_host := ollama_host (session s);
                           client_id := S (next_id s) |})
                  (session s)));
        world := w; next_id := S (S (next_id s));
        trace := trace s ++
          [EvClient (ollama_host (session s));
           EvShow {| client_host := ollama_host (session s); client_id := next_id s |}
                  (ollama_model (session s));
           EvClient (ollama_host (session s))] |}).
Proof.
  intros E1 E2. unfold update_connection, bind, get. cbn.
  rewrite (initialize_succeeds _ _ _ _ E1 E2). cbn.
  unfold Client_new. cbn. rewrite E1. cbn.
  now rewrite <- app_assoc.
Qed.

(** [update_connection] never raises; it leaves the configuration alone
    and adds one reconnect attempt for it to the trace. *)
Lemma update_connection_attempt s :
  exists s',
    update_connection s = (Ok tt, s')
    /\ ollama_host (session s') = ollama_host (session s)
    /\ ollama_model (session s') = ollama_model (session s)
    /\ exists evs,
         trace s' = trace s ++ evs
         /\ reconnect_attempt (ollama_host (session s)) (ollama_model (session s)) evs.
Proof.
  destruct (Client_init (ollama_host (session s))) as [e|] eqn:E1.
  - eexists. split; [apply (update_connection_rejected_host _ _ E1)|].
    cbn. repeat split. eexists. split; [reflexivity|]. now left.
  - destruct (Client_show (ollama_host (session s)) (ollama_model (session s)) (world s))
      as [[e|] w] eqn:E2.
    + eexists. split; [apply (update_connection_failed_probe _ _ _ E1 E2)|].
      cbn. repeat split. eexists. split; [reflexivity|].
      right; left. eexists. split; [|reflexivity]. reflexivity.
    + eexists. split; [apply (update_connection_succeeds _ _ E1 E2)|].
      cbn. repeat split. eexists. split; [reflexivity|].
      right; right. eexists. split; [|reflexivity]. reflexivity.
Qed.

Lemma update_connection_client_known s :
  client_known s -> client_known (snd (update_connection s)).
Proof.
  intros K.
  destruct (Client_init (ollama_host (session s))) as [e|] eqn:E1.
  - rewrite (update_connection_rejected_host _ _ E1). intros c. cbn. discriminate.
  - destruct (Client_show (ollama_host (session s)) (ollama_model (session s)) (world s))
      as [[e|] w] eqn:E2.
    + rewrite (update_connection_failed_probe _ _ _ E1 E2). intros c. cbn. discriminate.
    + rewrite (update_connection_succeeds _ _ E1 E2). intros c. cbn.
      intros [= <-]. cbn. lia.
Qed.

(** A reconnect attempt sends no generation request, shows nothing in the
    response container, warns about nothing, and probes at most once. *)
Lemma reconnect_attempt_quiet h m evs :
  reconnect_attempt h m evs ->
  List.filter is_generate evs = []
  /\ markdowns evs = []
  /\ List.filter is_warning evs = []
  /\ List.filter is_error evs = []
  /\ length (List.filter is_show evs) <= 1.
Proof.
  intros [-> | [(c & _ & ->) | (c & _ & ->)]]; cbn; repeat split; lia.
Qed.

Lemma connect_unfold new_host new_model s :
  connect new_host new_model s =
    update_connection
      {| session := set_ollama_model new_model (set_ollama_host new_host (session s));
         world := world s; next_id := next_id s; trace := trace s |}.
Proof. reflexivity. Qed.

(** C2. Whenever constructing the client or the model query raises,
    [connect] catches the exception: the probe returns [(False, message)]
    with a non-empty message, [connect] returns normally, the status is
    the failure status carrying that message, and no client is stored,
    whatever the session held before. *)
Theorem connect_failure_is_caught new_host new_model s e :
  Client_init new_host = Some e
  \/ (Client_init new_host = None
      /\ fst (Client_show new_host new_model (world s)) = Some e) ->
  exists s',
    connect new_host new_model s = (Ok tt, s')
    /\ fst (initialize_ollama_client new_host new_model s)
       = Ok (false, Some ("Unexpected error: " +:+ exn_str e))
    /\ "Unexpected error: " +:+ exn_str e <> ""
    /\ connection_status (session s')
       = "Connection Failed: " +:+ "Unexpected error: " +:+ exn_str e
    /\ connection_status (session s') <> "Connected"
    /\ ollama_client (session s') = None.
Proof.
  intros Hfail. rewrite connect_unfold.
  set (s0 := {| session := set_ollama_model new_model (set_ollama_host new_host (session s));
                world := world s; next_id := next_id s; trace := trace s |}).
  assert (Hmsg : forall x, "Connection Failed: " +:+ x <> "Connected").
  { intros x. rewrite !append_cons. discriminate. }
  destruct Hfail as [E1 | [E1 E2]].
  - exists (snd (update_connection s0)).
    rewrite (update_connection_rejected_host s0 e E1).
    rewrite (initialize_rejected_host _ _ _ _ E1). cbn.
    repeat split; try reflexivity;
      [apply append_nonempty; discriminate | apply Hmsg].
  - destruct (Client_show new_host new_model (world s)) as [r w] eqn:E3.
    cbn in E2. subst r.
    exists (snd (update_connection s0)).
    rewrite (update_connection_failed_probe s0 e w E1 E3).
    rewrite (initialize_failed_probe _ _ _ _ _ E1 E3). cbn.
    repeat split; try reflexivity;
      [apply append_nonempty; discriminate | apply Hmsg].
Qed.

(** C8. Whenever constructing the client and the model query both
    succeed, [connect] returns normally after a probe that returned
    [(True, None)]; the given host and model are the stored configuration,
    the stored client is the one constructed after the probe, which is
    bound to the new host and is not the client held before, and the status
    is [Connected]. *)
Theorem connect_success_stores_fresh_client new_host new_model s :
  Client_init new_host = None ->
  fst (Client_show new_host new_model (world s)) = None ->
  exists s',
    connect new_host new_model s = (Ok tt, s')
    /\ fst (initialize_ollama_client new_host new_model s) = Ok (true, None)
    /\ ollama_host (session s') = new_host
    /\ ollama_model (session s') = new_model
    /\ last_successful_config (session s')
       = Some {| host := new_host; model := new_model |}
    /\ ollama_client (session s')
       = Some {| client_host := new_host; client_id := S (next_id s) |}
    /\ connection_status (session s') = "Connected"
    /\ (client_known s -> ollama_client (session s') <> ollama_client (session s))
    /\ client_known s'.
Proof.
  intros E1 E2. rewrite connect_unfold.
  set (s0 := {| session := set_ollama_model new_model (set_ollama_host new_host (session s));
                world := world s; next_id := next_id s; trace := trace s |}).
  destruct (Client_show new_host new_model (world s)) as [r w] eqn:E3.
  cbn in E2. subst r.
  exists (snd (update_connection s0)).
  rewrite (update_connection_succeeds s0 w E1 E3).
  rewrite (initialize_succeeds _ _ _ _ E1 E3). cbn.
  repeat split; try reflexivity.
  - intros K Heq. symmetry in Heq. apply K in Heq. cbn in Heq. lia.
  - intros c. cbn. intros [= <-]. cbn. lia.
Qed.

(** *** Response streamer *)

Lemma texts_so_far_cons acc t rs :
  texts_so_far acc (t :: rs) = (acc +:+ t) :: texts_so_far (acc +:+ t) rs.
Proof.
  unfold texts_so_far. cbn [length seq]. rewrite fmap_cons.
  assert (Hhead : text_so_far acc (t :: rs) 1 = acc +:+ t) by reflexivity.
  rewrite Hhead. f_equal.
  rewrite <- fmap_S_seq, <- list_fmap_compose.
  apply list_fmap_ext. intros i k _. unfold text_so_far, compose.
  rewrite firstn_cons, concat_cons. symmetry. apply append_assoc.
Qed.

Lemma filter_markdown_events (p : event -> bool) (l : list string) :
  (forall t, p (EvMarkdown t) = false) -> List.filter p (EvMarkdown <$> l) = [].
Proof. intros Hp. induction l as [|t l IH]; cbn; [reflexivity|]. now rewrite Hp. Qed.

Lemma markdowns_of_markdown_events (l : list string) : markdowns (EvMarkdown <$> l) = l.
Proof. induction l as [|t l IH]; cbn; [reflexivity|]. unfold markdowns in IH. now rewrite IH. Qed.

Lemma markdowns_app (l k : list event) : markdowns (l ++ k) = markdowns l ++ markdowns k.
Proof. apply omap_app. Qed.

(** The loop shows the full text after every chunk that carries a response
    and nothing after the others. *)
Lemma for_chunk_run cs acc s :
  for_chunk cs acc s =
    (Ok (acc +:+ String.concat "" (responses cs)),
     advance (world s) (EvMarkdown <$> texts_so_far acc (responses cs)) s).
Proof.
  revert acc s. induction cs as [|chunk rest IH]; intros acc s.
  - cbn. unfold ret, advance. rewrite append_empty_r, app_nil_r. now destruct s.
  - cbn [for_chunk]. unfold responses. cbn [omap list_omap].
    destruct (chunk !! "response") as [text|] eqn:E.
    + fold (responses rest). rewrite texts_so_far_cons, concat_cons, <- append_assoc.
      unfold bind, markdown, emit. rewrite IH. unfold advance, after. cbn.
      now rewrite <- app_assoc.
    + fold (responses rest). apply IH.
Qed.

(** What a generation request does once the prompt is not empty and a
    client is stored. *)
Lemma generate_ollama_response_run up sp s c stream w :
  up <> "" ->
  ollama_client (session s) = Some c ->
  Client_generate (client_host c) (ollama_model (session s)) up (system_arg sp) (world s)
    = (stream, w) ->
  generate_ollama_response up sp s =
    let streamed :=
      advance w ([EvEmpty; EvGenerate c (ollama_model (session s)) up (system_arg sp)]
                 ++ (EvMarkdown <$> texts_so_far "" (responses (chunks stream)))) s in
    match failure stream with
    | Some e =>
        update_connection
          (after (EvError ("An error occurred while generating: " +:+ exn_str e)) streamed)
    | None =>
        match sp with
        | Some t =>
            (Ok tt,
             after (EvCode ("Model: " +:+ ollama_model (session s) +:+ nl +:+
                            "Host: " +:+ ollama_host (session s) +:+ nl +:+
                            "System Prompt Length: " +:+ pretty (py_len t) +:+ nl +:+
                            "User Prompt Length: " +:+ pretty (py_len up)))
               (after (EvExpander "Debug Information") streamed))
        | None =>
            update_connection
              (after (EvError ("An error occurred while generating: "
                               +:+ "object of type 'NoneType' has no len()"))
                 (after (EvExpander "Debug Information") streamed))
        end
    end.
Proof.
  intros Hup Hc Hgen. unfold generate_ollama_response.
  rewrite (eqb_nonempty _ Hup).
  unfold try_except at 1. unfold bind at 1. unfold st_empty, emit.
  unfold bind at 1. unfold get at 1. cbn [session after].
  rewrite Hc. unfold bind at 1. unfold generate_method, ret at 1.
  unfold bind at 1. unfold get at 1. cbn [session].
  unfold bind at 1. unfold generate at 1. cbn [session world after]. rewrite Hgen.
  unfold bind at 1. rewrite for_chunk_run.
  unfold bind at 1. unfold end_of_stream.
  destruct (failure stream) as [e|].
  - unfold raise, bind, st_error, emit. cbn.
    unfold advance, after. cbn. rewrite <- !app_assoc. reflexivity.
  - unfold ret at 1. unfold bind at 1. unfold st_expander, emit.
    unfold bind at 1. unfold get at 1. unfold bind at 1. unfold get at 1.
    unfold bind at 1. unfold len_opt.
    destruct sp as [t|].
    + unfold ret, st_code, emit, advance, after. cbn.
      rewrite <- !app_assoc. reflexivity.
    + unfold raise, bind, st_error, emit. cbn.
      unfold advance, after. cbn. rewrite <- !app_assoc. reflexivity.
Qed.

Lemma filter_app_nil (p : event -> bool) (l k : list event) :
  List.filter p k = [] -> List.filter p (l ++ k) = List.filter p l.
Proof. intros E. now rewrite List.filter_app, E, app_nil_r. Qed.

(** Every such request returns normally; its trace starts with the empty
    container, the one generation request and the texts shown, and what
    follows holds no further request, text or warning. *)
Lemma generation_trace up sp s c stream w :
  up <> "" ->
  ollama_client (session s) = Some c ->
  Client_generate (client_host c) (ollama_model (session s)) up (system_arg sp) (world s)
    = (stream, w) ->
  exists s' rest,
    generate_ollama_response up sp s = (Ok tt, s')
    /\ emitted s s' =
         [EvEmpty; EvGenerate c (ollama_model (session s)) up (system_arg sp)]
         ++ (EvMarkdown <$> texts_so_far "" (responses (chunks stream)))
         ++ rest
    /\ List.filter is_generate rest = []
    /\ markdowns rest = []
    /\ List.filter is_warning rest = [].
Proof.
  intros Hup Hc Hgen.
  rewrite (generate_ollama_response_run _ _ _ _ _ _ Hup Hc Hgen). cbv zeta.
  set (shown := EvMarkdown <$> texts_so_far "" (responses (chunks stream))).
  set (call := EvGenerate c (ollama_model (session s)) up (system_arg sp)).
  destruct (failure stream) as [e|]; [|destruct sp as [t|]].
  - match goal with |- context [update_connection ?s0] =>
      destruct (update_connection_attempt s0) as (s' & Hrun & _ & _ & evs & Htr & Hatt)
    end.
    destruct (reconnect_attempt_quiet _ _ _ Hatt) as (Hg & Hm & Hw & _ & _).
    exists s', (EvError ("An error occurred while generating: " +:+ exn_str e) :: evs).
    split; [exact Hrun|]. split.
    + apply emitted_app. rewrite Htr. cbn. now rewrite <- !app_assoc.
    + repeat split; [exact Hg | exact Hm | exact Hw].
  - eexists _, [EvExpander "Debug Information"; EvCode _].
    split; [reflexivity|]. split.
    + apply emitted_app. cbn. now rewrite <- !app_assoc.
    + now cbn.
  - match goal with |- context [update_connection ?s0] =>
      destruct (update_connection_attempt s0) as (s' & Hrun & _ & _ & evs & Htr & Hatt)
    end.
    destruct (reconnect_attempt_quiet _ _ _ Hatt) as (Hg & Hm & Hw & _ & _).
    exists s', (EvExpander "Debug Information"
                :: EvError ("An error occurred while generating: "
                            +:+ "object of type 'NoneType' has no len()") :: evs).
    split; [exact Hrun|]. split.
    + apply emitted_app. rewrite Htr. cbn. now rewrite <- !app_assoc.
    + repeat split; [exact Hg | exact Hm | exact Hw].
Qed.

(** C1. When the generation stream raises, on opening or after any number
    of chunks, [generate_ollama_response] shows the error, then runs
    [update_connection] once and returns normally with its state.  The
    trace after the error report is one reconnect attempt for the host and
    model of the session state; it holds exactly one generation request and
    one error report. *)
Theorem stream_error_reconnects_once up sp s c stream w e :
  up <> "" ->
  ollama_client (session s) = Some c ->
  Client_generate (client_host c) (ollama_model (session s)) up (system_arg sp) (world s)
    = (stream, w) ->
  failure stream = Some e ->
  exists s' evs,
    generate_ollama_response up sp s = (Ok tt, s')
    /\ update_connection
         (after (EvError ("An error occurred while generating: " +:+ exn_str e))
            (advance w
               ([EvEmpty; EvGenerate c (ollama_model (session s)) up (system_arg sp)]
                ++ (EvMarkdown <$> texts_so_far "" (responses (chunks stream)))) s))
       = (Ok tt, s')
    /\ emitted s s' =
         [EvEmpty; EvGenerate c (ollama_model (session s)) up (system_arg sp)]
         ++ (EvMarkdown <$> texts_so_far "" (responses (chunks stream)))
         ++ [EvError ("An error occurred while generating: " +:+ exn_str e)]
         ++ evs
    /\ reconnect_attempt (ollama_host (session s)) (ollama_model (session s)) evs
    /\ length (List.filter is_generate (emitted s s')) = 1
    /\ length (List.filter is_error (emitted s s')) = 1
    /\ length (List.filter is_show (emitted s s')) <= 1.
Proof.
  intros Hup Hc Hgen Hfail.
  rewrite (generate_ollama_response_run _ _ _ _ _ _ Hup Hc Hgen). cbv zeta.
  rewrite Hfail.
  match goal with |- context [update_connection ?s0] =>
    destruct (update_connection_attempt s0) as (s' & Hrun & _ & _ & evs & Htr & Hatt)
  end.
  cbn [after advance session] in Hatt.
  destruct (reconnect_attempt_quiet _ _ _ Hatt) as (Hg & _ & _ & He & Hs).
  assert (Hem : emitted s s' =
    [EvEmpty; EvGenerate c (ollama_model (session s)) up (system_arg sp)]
    ++ (EvMarkdown <$> texts_so_far "" (responses (chunks stream)))
    ++ [EvError ("An error occurred while generating: " +:+ exn_str e)] ++ evs).
  { apply emitted_app. rewrite Htr. cbn. now rewrite <- !app_assoc. }
  exists s', evs. repeat split; try assumption.
  - rewrite Hem. cbn. rewrite List.filter_app. cbn. rewrite Hg, app_nil_r.
    now rewrite filter_markdown_events.
  - rewrite Hem. cbn. rewrite List.filter_app. cbn. rewrite He.
    now rewrite filter_markdown_events.
  - rewrite Hem. cbn. rewrite List.filter_app. cbn.
    now rewrite filter_markdown_events.
Qed.

(** C3. The texts shown in the response container are, in order, the
    concatenation of the first [k] response texts for [k = 1, 2, ...]: one
    text per chunk that carries a response, each the full text so far;
    chunks without a response add nothing. *)
Theorem yields_full_text_so_far up sp s c stream w :
  up <> "" ->
  ollama_client (session s) = Some c ->
  Client_generate (client_host c) (ollama_model (session s)) up (system_arg sp) (world s)
    = (stream, w) ->
  markdowns (emitted s (snd (generate_ollama_response up sp s)))
  = (fun k => String.concat "" (take k (responses (chunks stream))))
      <$> seq 1 (length (responses (chunks stream))).
Proof.
  intros Hup Hc Hgen.
  destruct (generation_trace _ _ _ _ _ _ Hup Hc Hgen)
    as (s' & rest & Hrun & Hem & _ & Hm & _).
  rewrite Hrun. cbn [snd]. rewrite Hem.
  rewrite !markdowns_app, markdowns_of_markdown_events, Hm, app_nil_r.
  reflexivity.
Qed.

(** C7. With an empty user prompt [generate_ollama_response] only warns:
    it returns at once, the session state (the client included) and the
    server are as before, and no request is in the trace. *)
Theorem empty_prompt_is_rejected sp s :
  generate_ollama_response "" sp s
  = (Ok tt, after (EvWarning "Please enter a prompt before generating.") s)
  /\ session (snd (generate_ollama_response "" sp s)) = session s
  /\ world (snd (generate_ollama_response "" sp s)) = world s
  /\ List.filter is_generate (emitted s (snd (generate_ollama_response "" sp s))) = [].
Proof.
  repeat split.
  unfold generate_ollama_response, st_warning, emit, emitted, after. cbn.
  now rewrite drop_app_length.
Qed.

(** C9. The one generation request carries [system_arg system_prompt],
    which is [None] when the system prompt is [None] or the empty string
    and the system prompt itself otherwise. *)
Theorem empty_system_prompt_is_omitted up sp s c :
  up <> "" ->
  ollama_client (session s) = Some c ->
  List.filter is_generate (emitted s (snd (generate_ollama_response up sp s)))
  = [EvGenerate c (ollama_model (session s)) up (system_arg sp)]
  /\ (sp = None \/ sp = Some "" -> system_arg sp = None)
  /\ (forall t, sp = Some t -> t <> "" -> system_arg sp = Some t).
Proof.
  intros Hup Hc. split; [|split].
  - destruct (Client_generate (client_host c) (ollama_model (session s)) up
                (system_arg sp) (world s)) as [stream w] eqn:Hgen.
    destruct (generation_trace _ _ _ _ _ _ Hup Hc Hgen)
      as (s' & rest & Hrun & Hem & Hg & _ & _).
    rewrite Hrun. cbn [snd]. rewrite Hem.
    cbn [app List.filter is_generate]. f_equal.
    rewrite List.filter_app, Hg, app_nil_r.
    now apply filter_markdown_events.
  - intros [-> | ->]; reflexivity.
  - intros t -> Ht. unfold system_arg, truthy. now rewrite (eqb_nonempty _ Ht).
Qed.

(** Without a stored client the attribute lookup raises before any
    request is made; the handler reports it and reconnects. *)
Lemma generate_ollama_response_without_client up sp s :
  up <> "" ->
  ollama_client (session s) = None ->
  generate_ollama_response up sp s =
    update_connection
      (after (EvError ("An error occurred while generating: "
                       +:+ "'NoneType' object has no attribute 'generate'"))
         (after EvEmpty s)).
Proof.
  intros Hup Hc. unfold generate_ollama_response.
  rewrite (eqb_nonempty _ Hup).
  unfold try_except at 1. unfold bind at 1. unfold st_empty, emit.
  unfold bind at 1. unfold get at 1. cbn [session after].
  rewrite Hc. unfold bind at 1. unfold generate_method, raise.
  reflexivity.
Qed.

(** Generation keeps the identities of client objects below the counter. *)
Lemma generate_ollama_response_client_known up sp s :
  client_known s -> client_known (snd (generate_ollama_response up sp s)).
Proof.
  intros K. destruct (String.eqb_spec up "") as [-> | Hup]; [exact K|].
  destruct (ollama_client (session s)) as [c|] eqn:Hc.
  - destruct (Client_generate (client_host c) (ollama_model (session s)) up
                (system_arg sp) (world s)) as [stream w] eqn:Hgen.
    rewrite (generate_ollama_response_run _ _ _ _ _ _ Hup Hc Hgen). cbv zeta.
    destruct (failure stream) as [e|]; [|destruct sp as [t|]];
      solve [exact K | apply update_connection_client_known; exact K].
  - rewrite (generate_ollama_response_without_client _ _ _ Hup Hc).
    apply update_connection_client_known. exact K.
Qed.

(** A non-empty prompt passes the guard: the response container is
    created first, and no warning follows. *)
Lemma guard_passed up sp s :
  up <> "" ->
  exists rest,
    emitted s (snd (generate_ollama_response up sp s)) = EvEmpty :: rest
    /\ List.filter is_warning rest = [].
Proof.
  intros Hup. destruct (ollama_client (session s)) as [c|] eqn:Hc.
  - destruct (Client_generate (client_host c) (ollama_model (session s)) up
                (system_arg sp) (world s)) as [stream w] eqn:Hgen.
    destruct (generation_trace _ _ _ _ _ _ Hup Hc Hgen)
      as (s' & rest & Hrun & Hem & _ & _ & Hw).
    rewrite Hrun. cbn [snd]. rewrite Hem. eexists. split; [reflexivity|].
    cbn [List.filter is_warning]. rewrite List.filter_app, Hw, app_nil_r.
    now apply filter_markdown_events.
  - rewrite (generate_ollama_response_without_client _ _ _ Hup Hc).
    match goal with |- context [update_connection ?s0] =>
      destruct (update_connection_attempt s0) as (s' & Hrun & _ & _ & evs & Htr & Hatt)
    end.
    destruct (reconnect_attempt_quiet _ _ _ Hatt) as (_ & _ & Hw & _ & _).
    rewrite Hrun. cbn [snd]. eexists. split.
    + apply emitted_app. rewrite Htr. cbn. rewrite <- !app_assoc. reflexivity.
    + exact Hw.
Qed.

(** C10. A prompt of white space only is not empty for the guard: nothing
    is warned about, the request is attempted, and whenever a client is
    stored the generation request for that very prompt is sent, once. *)
Theorem whitespace_prompt_is_sent up sp s :
  whitespace_only up ->
  (exists rest, emitted s (snd (generate_ollama_response up sp s)) = EvEmpty :: rest)
  /\ List.filter is_warning (emitted s (snd (generate_ollama_response up sp s))) = []
  /\ (forall c,
       ollama_client (session s) = Some c ->
       List.filter is_generate (emitted s (snd (generate_ollama_response up sp s)))
       = [EvGenerate c (ollama_model (session s)) up (system_arg sp)]).
Proof.
  intros [Hup _]. split; [|split].
  - destruct (guard_passed up sp s Hup) as (rest & Hem & _). now exists rest.
  - destruct (guard_passed up sp s Hup) as (rest & Hem & Hw). now rewrite Hem.
  - intros c Hc.
    destruct (Client_generate (client_host c) (ollama_model (session s)) up
                (system_arg sp) (world s)) as [stream w] eqn:Hgen.
    destruct (generation_trace _ _ _ _ _ _ Hup Hc Hgen)
      as (s' & rest & Hrun & Hem & Hg & _ & _).
    rewrite Hrun. cbn [snd]. rewrite Hem.
    cbn [app List.filter is_generate]. f_equal.
    rewrite List.filter_app, Hg, app_nil_r.
    now apply filter_markdown_events.
Qed.

(** *** Document reader *)

Lemma lower_ascii_dot a : Ascii.eqb (lower_ascii a) "." = Ascii.eqb a ".".
Proof. destruct a as [[] [] [] [] [] [] [] []]; reflexivity. Qed.

Lemma lower_ascii_slash a : Ascii.eqb (lower_ascii a) "/" = Ascii.eqb a "/".
Proof. destruct a as [[] [] [] [] [] [] [] []]; reflexivity. Qed.

Lemma rfind_from_lower c p i last :
  (forall a, Ascii.eqb (lower_ascii a) c = Ascii.eqb a c) ->
  rfind_from c (lower_ascii <$> p) i last = rfind_from c p i last.
Proof.
  intros Hc. revert i last. induction p as [|a p IH]; intros i last; cbn; [reflexivity|].
  now rewrite Hc, IH.
Qed.

Lemma skip_leading_dots_lower p i n :
  skip_leading_dots (lower_ascii <$> p) i n = skip_leading_dots p i n.
Proof.
  revert i. induction n as [|n IH]; intros i; cbn; [reflexivity|].
  rewrite list_lookup_fmap. destruct (p !! Z.to_nat i) as [a|]; cbn; [|reflexivity].
  now rewrite lower_ascii_dot, IH.
Qed.

(** Lowering a path lowers both parts of its split: the split looks at
    dots and slashes only. *)
Lemma splitext_list_lower p :
  splitext_list (lower_ascii <$> p)
  = (lower_ascii <$> fst (splitext_list p), lower_ascii <$> snd (splitext_list p)).
Proof.
  unfold splitext_list, rfind.
  rewrite !rfind_from_lower by (apply lower_ascii_dot || apply lower_ascii_slash).
  rewrite skip_leading_dots_lower.
  destruct (_ && _); cbn; [|reflexivity].
  now rewrite fmap_take, fmap_drop.
Qed.

Lemma file_extension_of_lower f :
  file_extension_of f = snd (splitext (lower (name f))).
Proof.
  unfold file_extension_of, splitext, lower.
  rewrite list_ascii_of_string_of_list_ascii, splitext_list_lower.
  destruct (splitext_list (list_ascii_of_string (name f))) as [root ext]. cbn.
  now rewrite list_ascii_of_string_of_list_ascii.
Qed.

(** The reader looks at the name through its lower-case form only. *)
Lemma read_document_content_case f g s :
  lower (name g) = lower (name f) -> data g = data f ->
  read_document_content g s = read_document_content f s.
Proof.
  intros Hn Hd. unfold read_document_content.
  now rewrite (file_extension_of_lower g), (file_extension_of_lower f), Hn, Hd.
Qed.

Lemma pdf_is_not_a_text_extension : ".pdf" ∉ text_extensions.
Proof. apply (bool_decide_unpack _). vm_compute. exact I. Qed.

(** The page loop from page number [length before] on, when every
    remaining page yields its text. *)
Lemma for_page_num_all before rest texts text s :
  extract_text <$> rest = Ok <$> texts ->
  for_page_num (before ++ rest) (seq (length before) (length rest)) text s
  = (Ok (text +:+ String.concat "" texts), s).
Proof.
  revert before texts text. induction rest as [|page rest IH]; intros before texts text Hx.
  - destruct texts; [|discriminate]. cbn. unfold ret. now rewrite append_empty_r.
  - destruct texts as [|t texts]; [discriminate|].
    rewrite !fmap_cons in Hx. injection Hx as Hp Hrest.
    cbn [length seq for_page_num]. unfold bind at 1. unfold page_at.
    rewrite list_lookup_middle by reflexivity. unfold ret at 1.
    unfold bind at 1. unfold lift at 1. rewrite Hp.
    specialize (IH (before ++ [page]) texts (text +:+ t) Hrest).
    rewrite <- app_assoc, length_app, Nat.add_1_r in IH. cbn in IH.
    now rewrite IH, concat_cons, append_assoc.
Qed.

(** The page loop when a page raises after pages that yield their text. *)
Lemma for_page_num_raises before good texts bad rest e text s :
  extract_text <$> good = Ok <$> texts ->
  extract_text bad = Raise e ->
  for_page_num (before ++ good ++ bad :: rest)
    (seq (length before) (length (good ++ bad :: rest))) text s
  = (Raise e, s).
Proof.
  revert before texts text. induction good as [|page good IH]; intros before texts text Hx Hbad.
  - cbn [app length seq for_page_num]. unfold bind at 1. unfold page_at.
    rewrite list_lookup_middle by reflexivity. unfold ret at 1.
    unfold bind, lift. now rewrite Hbad.
  - destruct texts as [|t texts]; [discriminate|].
    rewrite !fmap_cons in Hx. injection Hx as Hp Hgood.
    cbn [app length seq for_page_num]. unfold bind at 1. unfold page_at.
    rewrite list_lookup_middle by reflexivity. unfold ret at 1.
    unfold bind at 1. unfold lift at 1. rewrite Hp.
    specialize (IH (before ++ [page]) texts (text +:+ t) Hgood Hbad).
    rewrite <- app_assoc, length_app, Nat.add_1_r in IH. cbn in IH.
    exact IH.
Qed.

(** A list with a page that raises has a first such page. *)
Lemma first_failing_page (pages : list Page) page e :
  page ∈ pages -> extract_text page = Raise e ->
  exists good texts bad rest e',
    pages = good ++ bad :: rest
    /\ extract_text <$> good = Ok <$> texts
    /\ extract_text bad = Raise e'.
Proof.
  intros Hin Hraise. induction pages as [|p pages IH]; [now apply elem_of_nil in Hin|].
  destruct (extract_text p) as [t|e'] eqn:Hp.
  - apply elem_of_cons in Hin as [-> | Hin]; [congruence|].
    destruct (IH Hin) as (good & texts & bad & rest & e'' & -> & Hgood & Hbad).
    exists (p :: good), (t :: texts), bad, rest, e''.
    repeat split; [|exact Hbad]. rewrite !fmap_cons. now rewrite Hp, Hgood.
  - exists [], [], p, pages, e'. now repeat split.
Qed.

(** C4. For a name whose extension is [.pdf] in any case: when the parse
    and every page's extraction succeed, the result is the pages' texts
    concatenated in page order with nothing in between; when the parse
    raises, or any page's extraction raises, the exception is caught, an
    error is shown, and the result is [None]: no text of earlier pages is
    returned. *)
Theorem pdf_text_is_all_pages_in_order f s :
  file_extension_of f = ".pdf" ->
  (forall pages texts,
     PdfReader_pages (data f) = Ok pages ->
     extract_text <$> pages = Ok <$> texts ->
     read_document_content f s = (Ok (Some (String.concat "" texts)), s))
  /\ (forall e,
       PdfReader_pages (data f) = Raise e ->
       read_document_content f s
       = (Ok None, after (EvError ("Error reading PDF content: " +:+ exn_str e)) s))
  /\ (forall pages page e,
       PdfReader_pages (data f) = Ok pages ->
       page ∈ pages ->
       extract_text page = Raise e ->
       exists e',
         read_document_content f s
         = (Ok None, after (EvError ("Error reading PDF content: " +:+ exn_str e')) s)).
Proof.
  intros Hext. unfold read_document_content. rewrite Hext.
  rewrite (decide_False (P := ".pdf" ∈ text_extensions)) by apply pdf_is_not_a_text_extension.
  rewrite (decide_True (P := ".pdf" = ".pdf")) by reflexivity.
  split; [|split].
  - intros pages texts Hparse Hx.
    unfold try_except, bind at 1, lift at 1. rewrite Hparse.
    pose proof (for_page_num_all [] pages texts "" s Hx) as Hrun.
    cbn [app length] in Hrun. unfold bind. now rewrite Hrun.
  - intros e Hparse.
    unfold try_except, bind at 1, lift at 1. now rewrite Hparse.
  - intros pages page e Hparse Hin Hraise.
    destruct (first_failing_page pages page e Hin Hraise)
      as (good & texts & bad & rest & e' & -> & Hgood & Hbad).
    exists e'.
    unfold try_except, bind at 1, lift at 1. rewrite Hparse.
    pose proof (for_page_num_raises [] good texts bad rest e' "" s Hgood Hbad) as Hrun.
    cbn [app length] in Hrun. unfold bind at 1. cbn [app]. now rewrite Hrun.
Qed.

(** C5. For a name whose extension is in the plain-text list, in any
    case: when the bytes decode, the result is the decoded string as it
    is and nothing is shown; when decoding raises, the exception is
    caught, an error is shown, and the result is [None]. *)
Theorem text_file_is_decoded_or_refused f s :
  file_extension_of f ∈ text_extensions ->
  (forall text,
     decode_utf8 (data f) = Ok text ->
     read_document_content f s = (Ok (Some text), s))
  /\ (forall e,
       decode_utf8 (data f) = Raise e ->
       read_document_content f s
       = (Ok None,
          after (EvError ("Error reading text-based content: " +:+ exn_str e)) s)).
Proof.
  intros Hext. unfold read_document_content.
  rewrite (decide_True (P := file_extension_of f ∈ text_extensions)) by exact Hext.
  split.
  - intros text Hd. unfold try_except, bind, lift. now rewrite Hd.
  - intros e Hd. unfold try_except, bind, lift. now rewrite Hd.
Qed.

End Properties.

(** ** Further properties of the functions *)

Section FurtherProperties.
Context {W : Type} {srv : Server W} {codec : Codec} {pdf : PdfLibrary}.
Implicit Types (s : State W) (e : exn).

Lemma failed_status_is_not_connected (x : string) :
  "Connection Failed: " +:+ x <> "Connected".
Proof. rewrite !append_cons. discriminate. Qed.

(** Whatever the probe says, [update_connection] returns normally with a
    coherent session for the same host and model, after one reconnect
    attempt. *)
Lemma update_connection_outcome s :
  exists s',
    update_connection s = (Ok tt, s')
    /\ coherent (session s')
    /\ ollama_host (session s') = ollama_host (session s)
    /\ ollama_model (session s') = ollama_model (session s)
    /\ exists evs,
         trace s' = trace s ++ evs
         /\ reconnect_attempt (ollama_host (session s)) (ollama_model (session s)) evs.
Proof.
  destruct (Client_init (ollama_host (session s))) as [e|] eqn:E1.
  - eexists. split; [apply (update_connection_rejected_host _ _ E1)|].
    cbn. split; [apply failed_status_is_not_connected|].
    repeat split. eexists. split; [reflexivity|]. now left.
  - destruct (Client_show (ollama_host (session s)) (ollama_model (session s)) (world s))
      as [[e|] w] eqn:E2.
    + eexists. split; [apply (update_connection_failed_probe _ _ _ E1 E2)|].
      cbn. split; [apply failed_status_is_not_connected|].
      repeat split. eexists. split; [reflexivity|].
      right; left. eexists. split; [|reflexivity]. reflexivity.
    + eexists. split; [apply (update_connection_succeeds _ _ E1 E2)|].
      cbn. split; [unfold coherent; cbn; now repeat split|].
      repeat split. eexists. split; [reflexivity|].
      right; right. eexists. split; [|reflexivity]. reflexivity.
Qed.

(** X1. From any session state whatever, [update_connection] returns
    normally and leaves a coherent session: a client is stored exactly
    with the status [Connected], it is bound to the configured host, and
    [last_successful_config] then is the current host and model.  Host and
    model are not changed. *)
Theorem update_connection_leaves_coherent_session s :
  exists s',
    update_connection s = (Ok tt, s')
    /\ coherent (session s')
    /\ (connection_status (session s') = "Connected"
        <-> ollama_client (session s') <> None)
    /\ ollama_host (session s') = ollama_host (session s)
    /\ ollama_model (session s') = ollama_model (session s).
Proof.
  destruct (update_connection_outcome s) as (s' & Hrun & Hco & Hh & Hm & _).
  exists s'. repeat split; try assumption.
  - intros Hst Hnone. unfold coherent in Hco. rewrite Hnone in Hco. contradiction.
  - intros Hsome. unfold coherent in Hco.
    destruct (ollama_client (session s')) as [c|]; [apply Hco | contradiction].
Qed.

(** X2. A failed [connect] is not rolled back: host and model are the
    ones just tried, the client is gone, and [last_successful_config]
    still holds what it held before the attempt. *)
Theorem failed_connect_is_not_rolled_back new_host new_model s e :
  Client_init new_host = Some e
  \/ (Client_init new_host = None
      /\ fst (Client_show new_host new_model (world s)) = Some e) ->
  session (snd (connect new_host new_model s))
  = {| ollama_host := new_host;
       ollama_model := new_model;
       ollama_client := None;
       connection_status := "Connection Failed: " +:+ "Unexpected error: " +:+ exn_str e;
       last_successful_config := last_successful_config (session s) |}.
Proof.
  intros Hfail. rewrite connect_unfold.
  set (s0 := {| session := set_ollama_model new_model (set_ollama_host new_host (session s));
                world := world s; next_id := next_id s; trace := trace s |}).
  destruct Hfail as [E1 | [E1 E2]].
  - now rewrite (update_connection_rejected_host s0 e E1).
  - destruct (Client_show new_host new_model (world s)) as [r w] eqn:E3.
    cbn in E2. subst r.
    now rewrite (update_connection_failed_probe s0 e w E1 E3).
Qed.

(** X3. With a non-empty prompt and no client stored, no generation
    request is made: the missing client is reported as an error after the
    response container is created, and one reconnect attempt follows. *)
Theorem generation_without_client_reconnects up sp s :
  up <> "" ->
  ollama_client (session s) = None ->
  exists s' evs,
    generate_ollama_response up sp s = (Ok tt, s')
    /\ emitted s s'
       = [EvEmpty;
          EvError "An error occurred while generating: 'NoneType' object has no attribute 'generate'"]
         ++ evs
    /\ reconnect_attempt (ollama_host (session s)) (ollama_model (session s)) evs
    /\ List.filter is_generate (emitted s s') = []
    /\ coherent (session s').
Proof.
  intros Hup Hc. rewrite (generate_ollama_response_without_client _ _ _ Hup Hc).
  match goal with |- context [update_connection ?s0] =>
    destruct (update_connection_outcome s0) as (s' & Hrun & Hco & _ & _ & evs & Htr & Hatt)
  end.
  cbn [after session] in Hatt.
  destruct (reconnect_attempt_quiet _ _ _ Hatt) as (Hg & _).
  assert (Hem : emitted s s' =
    [EvEmpty;
     EvError "An error occurred while generating: 'NoneType' object has no attribute 'generate'"]
    ++ evs).
  { apply emitted_app. rewrite Htr. cbn. now rewrite <- !app_assoc. }
  exists s', evs. repeat split; try assumption.
  rewrite Hem. cbn. exact Hg.
Qed.

(** X4. A generation whose stream ends normally, with a system prompt
    that is a string, leaves the session state alone and reports nothing:
    after the texts, the debug expander shows model, host and the two
    prompt lengths counted in code points. *)
Theorem successful_generation_keeps_session up t s c stream w :
  up <> "" ->
  ollama_client (session s) = Some c ->
  Client_generate (client_host c) (ollama_model (session s)) up (system_arg (Some t)) (world s)
    = (stream, w) ->
  failure stream = None ->
  exists s',
    generate_ollama_response up (Some t) s = (Ok tt, s')
    /\ session s' = session s
    /\ next_id s' = next_id s
    /\ world s' = w
    /\ emitted s s'
       = [EvEmpty; EvGenerate c (ollama_model (session s)) up (system_arg (Some t))]
         ++ (EvMarkdown <$> texts_so_far "" (responses (chunks stream)))
         ++ [EvExpander "Debug Information";
             EvCode ("Model: " +:+ ollama_model (session s) +:+ nl +:+
                     "Host: " +:+ ollama_host (session s) +:+ nl +:+
                     "System Prompt Length: " +:+ pretty (py_len t) +:+ nl +:+
                     "User Prompt Length: " +:+ pretty (py_len up))]
    /\ List.filter is_error (emitted s s') = []
    /\ List.filter is_warning (emitted s s') = [].
Proof.
  intros Hup Hc Hgen Hend.
  rewrite (generate_ollama_response_run _ _ _ _ _ _ Hup Hc Hgen). cbv zeta.
  rewrite Hend. eexists. split; [reflexivity|].
  match goal with |- context [emitted s ?s1] =>
    assert (Hem : emitted s s1 =
      [EvEmpty; EvGenerate c (ollama_model (session s)) up (system_arg (Some t))]
      ++ (EvMarkdown <$> texts_so_far "" (responses (chunks stream)))
      ++ [EvExpander "Debug Information";
          EvCode ("Model: " +:+ ollama_model (session s) +:+ nl +:+
                  "Host: " +:+ ollama_host (session s) +:+ nl +:+
                  "System Prompt Length: " +:+ pretty (py_len t) +:+ nl +:+
                  "User Prompt Length: " +:+ pretty (py_len up))])
  end.
  { apply emitted_app. cbn. now rewrite <- !app_assoc. }
  repeat split; try exact Hem.
  - rewrite Hem. cbn [app List.filter is_error]. rewrite List.filter_app. cbn.
    rewrite app_nil_r. now apply filter_markdown_events.
  - rewrite Hem. cbn [app List.filter is_warning]. rewrite List.filter_app. cbn.
    rewrite app_nil_r. now apply filter_markdown_events.
Qed.

(** X5. With [None] for the system prompt, even a stream that ends
    normally ends in an error: once all texts are shown and the debug
    expander is opened, [len(system_prompt)] raises, the error is
    reported, and a reconnect attempt follows. *)
Theorem missing_system_prompt_ends_in_error up s c stream w :
  up <> "" ->
  ollama_client (session s) = Some c ->
  Client_generate (client_host c) (ollama_model (session s)) up None (world s)
    = (stream, w) ->
  failure stream = None ->
  exists s' evs,
    generate_ollama_response up None s = (Ok tt, s')
    /\ emitted s s'
       = [EvEmpty; EvGenerate c (ollama_model (session s)) up None]
         ++ (EvMarkdown <$> texts_so_far "" (responses (chunks stream)))
         ++ [EvExpander "Debug Information";
             EvError "An error occurred while generating: object of type 'NoneType' has no len()"]
         ++ evs
    /\ reconnect_attempt (ollama_host (session s)) (ollama_model (session s)) evs.
Proof.
  intros Hup Hc Hgen Hend.
  rewrite (generate_ollama_response_run up None s c stream w Hup Hc Hgen). cbv zeta.
  rewrite Hend.
  match goal with |- context [update_connection ?s0] =>
    destruct (update_connection_outcome s0) as (s' & Hrun & _ & _ & _ & evs & Htr & Hatt)
  end.
  cbn [after advance session] in Hatt.
  exists s', evs. split; [exact Hrun|]. split; [|exact Hatt].
  apply emitted_app. rewrite Htr. cbn. now rewrite <- !app_assoc.
Qed.

(** X6. After a stream error the connection is what the probe of the
    reconnect says, asked once the generation request has been answered:
    if the model query succeeds, a new client object is stored and the
    status is [Connected]; if it raises, no client is stored and the
    status carries that exception. *)
Theorem stream_error_outcome_follows_probe up sp s c stream w e :
  up <> "" ->
  ollama_client (session s) = Some c ->
  Client_generate (client_host c) (ollama_model (session s)) up (system_arg sp) (world s)
    = (stream, w) ->
  failure stream = Some e ->
  Client_init (ollama_host (session s)) = None ->
  (fst (Client_show (ollama_host (session s)) (ollama_model (session s)) w) = None ->
   session (snd (generate_ollama_response up sp s))
   = set_last_successful_config
       (Some {| host := ollama_host (session s); model := ollama_model (session s) |})
       (set_connection_status "Connected"
          (set_ollama_client
             (Some {| client_host := ollama_host (session s);
                      client_id := S (next_id s) |})
             (session s))))
  /\ (forall e2,
       fst (Client_show (ollama_host (session s)) (ollama_model (session s)) w) = Some e2 ->
       session (snd (generate_ollama_response up sp s))
       = set_connection_status
           ("Connection Failed: " +:+ "Unexpected error: " +:+ exn_str e2)
           (set_ollama_client None (session s))).
Proof.
  intros Hup Hc Hgen Hfail Hinit.
  rewrite (generate_ollama_response_run _ _ _ _ _ _ Hup Hc Hgen). cbv zeta.
  rewrite Hfail.
  destruct (Client_show (ollama_host (session s)) (ollama_model (session s)) w)
    as [r w2] eqn:Hshow.
  split.
  - cbn [fst]. intros ->.
    match goal with |- context [update_connection ?s0] =>
      rewrite (update_connection_succeeds s0 w2 Hinit Hshow)
    end.
    reflexivity.
  - cbn [fst]. intros e2 ->.
    match goal with |- context [update_connection ?s0] =>
      rewrite (update_connection_failed_probe s0 e2 w2 Hinit Hshow)
    end.
    reflexivity.
Qed.

(** *** Document reader *)

Lemma advance_nothing s : advance (world s) [] s = s.
Proof. destruct s. unfold advance. cbn. now rewrite app_nil_r. Qed.

(** The page loop touches no state. *)
Lemma for_page_num_frame pages page_nums text s :
  exists r, for_page_num pages page_nums text s = (r, s).
Proof.
  revert text. induction page_nums as [|n page_nums IH]; intros text.
  - eexists. reflexivity.
  - cbn [for_page_num]. unfold bind at 1. unfold page_at.
    destruct (pages !! n) as [page|]; [|eexists; reflexivity].
    unfold ret at 1. unfold bind at 1. unfold lift at 1.
    destruct (extract_text page) as [t|e]; [apply IH | eexists; reflexivity].
Qed.

(** The reader returns normally with the state it was given, plus at most
    one message. *)
Lemma read_document_content_outcome f s :
  exists r evs,
    read_document_content f s = (Ok r, advance (world s) evs s)
    /\ match r with
       | Some _ => evs = []
       | None => exists msg, evs = [EvError msg] \/ evs = [EvWarning msg]
       end.
Proof.
  unfold read_document_content.
  destruct (decide (file_extension_of f ∈ text_extensions)) as [_|_];
    [|destruct (decide (file_extension_of f = ".pdf")) as [_|_]].
  - unfold try_except, bind, lift.
    destruct (decode_utf8 (data f)) as [t|e].
    + exists (Some t), []. now rewrite advance_nothing.
    + exists None, [EvError ("Error reading text-based content: " +:+ exn_str e)].
      split; [reflexivity|]. eexists. now left.
  - unfold try_except, bind at 1, lift at 1.
    destruct (PdfReader_pages (data f)) as [pages|e].
    + unfold bind at 1.
      destruct (for_page_num_frame pages (seq 0 (length pages)) "" s) as [[text|e] ->].
      * exists (Some text), []. now rewrite advance_nothing.
      * exists None, [EvError ("Error reading PDF content: " +:+ exn_str e)].
        split; [reflexivity|]. eexists. now left.
    + exists None, [EvError ("Error reading PDF content: " +:+ exn_str e)].
      split; [reflexivity|]. eexists. now left.
  - exists None, [EvWarning unsupported_message].
    split; [reflexivity|]. eexists. now right.
Qed.

(** X7. [read_document_content] never raises and touches neither the
    session nor the server.  It returns a text without showing anything,
    or returns [None] after showing exactly one message, an error or a
    warning: the caller need not report a failure itself. *)
Theorem read_document_reports_exactly_when_it_fails f s :
  exists r evs,
    read_document_content f s = (Ok r, advance (world s) evs s)
    /\ match r with
       | Some _ => evs = []
       | None => exists msg, evs = [EvError msg] \/ evs = [EvWarning msg]
       end.
Proof. exact (read_document_content_outcome f s). Qed.

Lemma rfind_from_absent c p i last :
  c ∉ p -> rfind_from c p i last = last.
Proof.
  revert i last. induction p as [|a p IH]; intros i last Hc; [reflexivity|].
  apply not_elem_of_cons in Hc as [Hne Hc]. cbn.
  rewrite (proj2 (Ascii.eqb_neq a c)) by congruence. now apply IH.
Qed.

Lemma rfind_from_last c p1 p2 i last :
  c ∉ p2 -> rfind_from c (p1 ++ c :: p2) i last = (i + Z.of_nat (length p1))%Z.
Proof.
  intros Hc. revert i last. induction p1 as [|a p1 IH]; intros i last.
  - cbn. rewrite Ascii.eqb_refl, (rfind_from_absent _ _ _ _ Hc). lia.
  - cbn [app rfind_from length]. rewrite IH. lia.
Qed.

Lemma rfind_from_at_least c p i last :
  (last <= i)%Z -> (last <= rfind_from c p i last)%Z.
Proof.
  revert i last. induction p as [|a p IH]; intros i last Hle; cbn; [lia|].
  destruct (Ascii.eqb a c).
  - specialize (IH (i + 1)%Z i). lia.
  - specialize (IH (i + 1)%Z last). lia.
Qed.

Lemma list_ascii_of_string_app (x y : string) :
  list_ascii_of_string (x +:+ y) = list_ascii_of_string x ++ list_ascii_of_string y.
Proof.
  induction x as [|a x IH]; [reflexivity|].
  rewrite append_cons. cbn. now rewrite IH.
Qed.

Lemma no_extension_is_unsupported f s :
  file_extension_of f = "" ->
  read_document_content f s = (Ok None, after (EvWarning unsupported_message) s).
Proof.
  intros Hext. unfold read_document_content. rewrite Hext.
  rewrite (decide_False (P := "" ∈ text_extensions))
    by (apply (bool_decide_unpack _); vm_compute; exact I).
  now rewrite (decide_False (P := "" = ".pdf")) by discriminate.
Qed.

(** X8. A name with no dot in it has no extension: the file is refused as
    unsupported, whatever its bytes. *)
Theorem name_without_dot_is_unsupported f s :
  "."%char ∉ list_ascii_of_string (name f) ->
  read_document_content f s = (Ok None, after (EvWarning unsupported_message) s).
Proof.
  intros Hdot. apply no_extension_is_unsupported.
  unfold file_extension_of, splitext, splitext_list, rfind.
  rewrite (rfind_from_absent "." _ 0 (-1) Hdot).
  pose proof (rfind_from_at_least "/" (list_ascii_of_string (name f)) 0 (-1)) as Hsep.
  rewrite (proj2 (Z.ltb_ge _ _)) by lia.
  reflexivity.
Qed.

(** X9. A name that is one dot followed by characters without dot or
    slash, such as [.txt] or [.pdf], has no extension either: the leading
    dot does not start one, and the file is refused as unsupported. *)
Theorem hidden_name_is_unsupported f rest s :
  name f = String "." rest ->
  "."%char ∉ list_ascii_of_string rest ->
  "/"%char ∉ list_ascii_of_string rest ->
  read_document_content f s = (Ok None, after (EvWarning unsupported_message) s).
Proof.
  intros Hname Hdot Hslash. apply no_extension_is_unsupported.
  unfold file_extension_of, splitext, splitext_list, rfind. rewrite Hname.
  cbn [list_ascii_of_string rfind_from].
  rewrite Ascii.eqb_refl.
  rewrite (proj2 (Ascii.eqb_neq "." "/")) by discriminate.
  rewrite (rfind_from_absent "." _ _ _ Hdot), (rfind_from_absent "/" _ _ _ Hslash).
  reflexivity.
Qed.

(** The extension of an ordinary file name: a stem that does not start
    with a dot, then a dot, then a suffix without dot, with no slash
    anywhere. *)
Lemma ordinary_name_extension f a stem ext :
  name f = String a stem +:+ String "." ext ->
  a <> "."%char ->
  "/"%char ∉ list_ascii_of_string (name f) ->
  "."%char ∉ list_ascii_of_string ext ->
  file_extension_of f = lower (String "." ext).
Proof.
  intros Hname Ha Hslash Hdot.
  unfold file_extension_of, splitext, splitext_list, rfind.
  rewrite (rfind_from_absent "/" _ 0 (-1) Hslash).
  rewrite Hname, list_ascii_of_string_app.
  cbn [list_ascii_of_string].
  set (front := a :: list_ascii_of_string stem).
  change (a :: list_ascii_of_string stem) with front.
  rewrite (rfind_from_last "." front (list_ascii_of_string ext) 0 (-1) Hdot).
  replace (0 + Z.of_nat (length front))%Z with (Z.of_nat (length front)) by lia.
  rewrite (proj2 (Z.ltb_lt _ _)) by lia.
  replace (Z.to_nat (Z.of_nat (length front) - (-1 + 1))) with (S (length (list_ascii_of_string stem)))
    by (subst front; cbn [length]; lia).
  cbn [skip_leading_dots andb]. subst front. cbn [app].
  assert (Hfirst : forall l : list ascii, (a :: l) !! Z.to_nat (-1 + 1) = Some a)
    by reflexivity.
  rewrite Hfirst.
  rewrite (proj2 (Ascii.eqb_neq a ".")) by exact Ha.
  rewrite Nat2Z.id.
  change (a :: list_ascii_of_string stem ++ "."%char :: list_ascii_of_string ext)
    with ((a :: list_ascii_of_string stem) ++ "."%char :: list_ascii_of_string ext).
  rewrite drop_app_length. cbn [snd string_of_list_ascii].
  now rewrite string_of_list_ascii_of_string.
Qed.

(** X10. For an ordinary file name, a stem that does not start with a
    dot, then a dot, then an ASCII suffix without dot, with no slash
    anywhere, the extension the reader looks at is the part from that last
    dot on, with its letters A-Z in lower case. *)
Theorem extension_of_ordinary_name f a stem ext :
  name f = String a stem +:+ String "." ext ->
  a <> "."%char ->
  "/"%char ∉ list_ascii_of_string (name f) ->
  "."%char ∉ list_ascii_of_string ext ->
  is_ascii_text ext ->
  file_extension_of f = lower (String "." ext).
Proof.
  intros Hname Ha Hslash Hdot _. now apply (ordinary_name_extension f a stem ext).
Qed.

(** A file of a supported kind is never answered with the warning for
    unsupported types. *)
Lemma supported_is_not_refused f s :
  file_extension_of f ∈ ".pdf" :: text_extensions ->
  read_document_content f s <> (Ok None, after (EvWarning unsupported_message) s).
Proof.
  intros Hin. unfold read_document_content.
  destruct (decide (file_extension_of f ∈ text_extensions)) as [_|Hnot].
  - unfold try_except, bind, lift.
    destruct (decode_utf8 (data f)) as [t|e]; [discriminate|].
    cbn. intros [= Habs]. apply app_inv_head in Habs. discriminate.
  - apply elem_of_cons in Hin as [Hpdf | Htext]; [|contradiction].
    rewrite (decide_True (P := file_extension_of f = ".pdf")) by exact Hpdf.
    unfold try_except, bind at 1, lift at 1.
    destruct (PdfReader_pages (data f)) as [pages|e].
    + unfold bind at 1.
      destruct (for_page_num_frame pages (seq 0 (length pages)) "" s) as [[text|e] ->].
      * discriminate.
      * cbn. intros [= Habs]. apply app_inv_head in Habs. discriminate.
    + cbn. intros [= Habs]. apply app_inv_head in Habs. discriminate.
Qed.

Lemma unlisted_is_refused f s :
  file_extension_of f ∉ ".pdf" :: text_extensions ->
  read_document_content f s = (Ok None, after (EvWarning unsupported_message) s).
Proof.
  intros Hout. apply not_elem_of_cons in Hout as [Hpdf Htext].
  unfold read_document_content.
  rewrite (decide_False (P := file_extension_of f ∈ text_extensions)) by exact Htext.
  now rewrite (decide_False (P := file_extension_of f = ".pdf")) by exact Hpdf.
Qed.

(** C6. The reader goes by the extension of the file's name, in either
    case: for an ordinary file name (a stem that does not start with a
    dot, then a dot, then a suffix without dot, no slash anywhere) the
    file is refused, with the warning for unsupported types and no text,
    exactly when the suffix with its dot, in lower case, is neither [.pdf]
    nor in the plain-text list.  For any name at all, an extension outside
    the lists is refused, and two files whose names differ in letter case
    only are treated alike.  The warning names every supported extension,
    each as a word of its own. *)
Theorem unsupported_extension_is_refused f a stem ext s :
  name f = String a stem +:+ String "." ext ->
  a <> "."%char ->
  "/"%char ∉ list_ascii_of_string (name f) ->
  "."%char ∉ list_ascii_of_string ext ->
  (read_document_content f s = (Ok None, after (EvWarning unsupported_message) s)
   <-> lower (String "." ext) ∉ ".pdf" :: text_extensions)
  /\ (forall g s0,
       file_extension_of g ∉ ".pdf" :: text_extensions ->
       read_document_content g s0
       = (Ok None, after (EvWarning unsupported_message) s0))
  /\ (forall g1 g2 s0,
       lower (name g1) = lower (name g2) -> data g1 = data g2 ->
       read_document_content g1 s0 = read_document_content g2 s0)
  /\ unsupported_message
     = "Unsupported file type. Please upload TXT, PDF, MD, or code files (.js, .py, .cs, .go, .html, .css, .xml, .json)."
  /\ Forall (fun listed => names_extension unsupported_message listed = true)
            (".pdf" :: text_extensions).
Proof.
  intros Hname Ha Hslash Hdot.
  pose proof (ordinary_name_extension f a stem ext Hname Ha Hslash Hdot) as Hext.
  split; [|split; [|split; [|split]]].
  - rewrite <- Hext. split.
    + intros Hrefused Hin. now apply (supported_is_not_refused f s Hin).
    + apply unlisted_is_refused.
  - intros g s0. apply unlisted_is_refused.
  - intros g1 g2 s0. apply read_document_content_case.
  - reflexivity.
  - repeat constructor.
Qed.

(** *** The page *)

Lemma emitted_nothing s : emitted s s = [].
Proof. unfold emitted. apply drop_all. Qed.

Lemma emitted_after ev s : emitted s (after ev s) = [ev].
Proof. now apply emitted_app. Qed.

Lemma emitted_advance w evs s : emitted s (advance w evs s) = evs.
Proof. now apply emitted_app. Qed.

Lemma call_get {A} (field : SessionState -> A) (r : Run W) :
  call (get field) r = (Ok (field (session (core r))), r).
Proof.
  unfold call, get. rewrite emitted_nothing. cbn. rewrite app_nil_r. now destruct r.
Qed.

Lemma call_run {A} (m : M W A) (r : Run W) x s' :
  m (core r) = (x, s') ->
  call m r = (x, {| core := s'; page := page r ++ (WShown <$> emitted (core r) s') |}).
Proof. intros E. unfold call. now rewrite E. Qed.

Lemma no_generate_request_to h m (evs : list event) :
  List.filter is_generate evs = [] -> Forall (request_to h m) evs.
Proof.
  induction evs as [|ev evs IH]; intros Hf; constructor.
  - destruct ev; cbn in *; try exact I. discriminate.
  - apply IH. destruct ev; cbn in Hf; try exact Hf. discriminate.
Qed.

(** [connect] returns normally with a coherent session for the host and
    model given, after one reconnect attempt. *)
Lemma connect_outcome h m s :
  exists s',
    connect h m s = (Ok tt, s')
    /\ coherent (session s')
    /\ ollama_host (session s') = h
    /\ ollama_model (session s') = m
    /\ exists evs, trace s' = trace s ++ evs /\ reconnect_attempt h m evs.
Proof.
  rewrite connect_unfold.
  match goal with |- context [update_connection ?s0] =>
    destruct (update_connection_outcome s0) as (s' & Hrun & Hco & Hh & Hm & evs & Htr & Hatt)
  end.
  exists s'. repeat split; try assumption. exists evs. split; assumption.
Qed.

(** The state in which the main area is drawn: coherent if the run
    started so, with the trace longer by at most one reconnect attempt. *)
Lemma after_sidebar_outcome inp s :
  (coherent (session s) -> coherent (session (after_sidebar inp s)))
  /\ exists evs,
       trace (after_sidebar inp s) = trace s ++ evs
       /\ List.filter is_generate evs = []
       /\ List.filter is_warning evs = [].
Proof.
  unfold after_sidebar. destruct (connect_pressed inp).
  - destruct (connect_outcome (new_host inp) (new_model inp) s)
      as (s' & Hrun & Hco & _ & _ & evs & Htr & Hatt).
    rewrite Hrun. cbn [snd]. split; [intros _; exact Hco|].
    destruct (reconnect_attempt_quiet _ _ _ Hatt) as (Hg & _ & Hw & _).
    exists evs. now repeat split.
  - split; [tauto|]. exists []. now rewrite app_nil_r.
Qed.

(** The script up to the end of the sidebar. *)
Lemma run_script_sidebar inp s :
  run_script inp s =
    (if String.eqb (tab_selection inp) "Query" then query_tab inp
     else if String.eqb (tab_selection inp) "Document Summary"
          then document_summary_tab inp
          else script_ret tt)
      {| core := after_sidebar inp s;
         page := sidebar_page (session s) (session (after_sidebar inp s))
                   (emitted s (after_sidebar inp s)) |}.
Proof.
  unfold run_script, script, sidebar.
  unfold script_bind at 1. unfold draw at 1. cbn [core page app].
  unfold script_bind at 1. unfold script_bind at 1. unfold draw at 1. cbn [core page app].
  unfold script_bind at 1. unfold draw at 1. cbn [core page app].
  unfold script_bind at 1. rewrite call_get. cbn [core page session].
  unfold script_bind at 1. unfold draw at 1. cbn [core page app].
  unfold script_bind at 1. rewrite call_get. cbn [core page session].
  unfold script_bind at 1. unfold draw at 1. cbn [core page app].
  unfold script_bind at 1. unfold draw at 1. cbn [core page app].
  unfold script_bind at 1. unfold after_sidebar.
  destruct (connect_pressed inp).
  - destruct (connect_outcome (new_host inp) (new_model inp) s) as (s' & Hrun & _).
    erewrite call_run by exact Hrun. cbn [core page]. rewrite Hrun. cbn [snd].
    unfold script_bind at 1. rewrite call_get. cbn [core page session].
    unfold script_bind at 1. rewrite call_get. cbn [core page session].
    unfold script_bind at 1. unfold draw at 1. cbn [core page].
    unfold script_bind at 1. unfold draw at 1. cbn [core page].
    unfold script_bind at 1. unfold draw at 1. cbn [core page].
    unfold draw at 1. cbn [core page].
    unfold sidebar_page. now rewrite <- !app_assoc.
  - unfold script_ret at 1.
    unfold script_bind at 1. rewrite call_get. cbn [core page session].
    unfold script_bind at 1. rewrite call_get. cbn [core page session].
    unfold script_bind at 1. unfold draw at 1. cbn [core page].
    unfold script_bind at 1. unfold draw at 1. cbn [core page].
    unfold script_bind at 1. unfold draw at 1. cbn [core page].
    unfold draw at 1. cbn [core page].
    unfold sidebar_page. rewrite emitted_nothing. now rewrite <- !app_assoc.
Qed.

Lemma bind_draw {B} (w : widget) (k : unit -> Script W B) (r : Run W) :
  script_bind (draw w) k r = k tt {| core := core r; page := page r ++ [w] |}.
Proof. reflexivity. Qed.

Lemma bind_call_get {A B} (field : SessionState -> A) (k : A -> Script W B) (r : Run W) :
  script_bind (call (get field)) k r = k (field (session (core r))) r.
Proof. unfold script_bind. now rewrite call_get. Qed.

Lemma bind_call_ok {A B} (m : M W A) (k : A -> Script W B) (r : Run W) a s' :
  m (core r) = (Ok a, s') ->
  script_bind (call m) k r
  = k a {| core := s'; page := page r ++ (WShown <$> emitted (core r) s') |}.
Proof. intros E. unfold script_bind. now rewrite (call_run _ _ _ _ E). Qed.

Lemma bind_file_uploader_ok {B} label type help file
    (k : option UploadedFile -> Script W B) (r : Run W) :
  script_bind (file_uploader label type help (Ok file)) k r
  = k file {| core := core r; page := page r ++ [WFileUploader label type help] |}.
Proof. reflexivity. Qed.

Lemma bind_file_uploader_raises {B} label type help e
    (k : option UploadedFile -> Script W B) (r : Run W) :
  script_bind (file_uploader label type help (Raise e)) k r = (Raise e, r).
Proof. reflexivity. Qed.

Lemma app_page {A} (l : list A) (x : A) (k : list A) : (l ++ [x]) ++ k = l ++ x :: k.
Proof. now rewrite <- app_assoc. Qed.

Lemma query_tab_without_client inp (r : Run W) :
  ollama_client (session (core r)) = None ->
  query_tab inp r =
    (Ok tt,
     {| core := after (EvWarning no_connection_warning) (core r);
        page := page r ++ [WHeader "Query"; WShown (EvWarning no_connection_warning)] |}).
Proof.
  intros Hc. unfold query_tab.
  repeat (first [rewrite bind_draw | rewrite bind_call_get]; cbv beta; cbn [core page]).
  rewrite Hc.
  unfold call, st_warning, emit. rewrite emitted_after. cbn.
  now rewrite app_page.
Qed.

Lemma document_summary_tab_without_client inp (r : Run W) :
  ollama_client (session (core r)) = None ->
  document_summary_tab inp r =
    (Ok tt,
     {| core := after (EvWarning no_connection_warning) (core r);
        page := page r
                ++ [WHeader "Document Summary"; WShown (EvWarning no_connection_warning)] |}).
Proof.
  intros Hc. unfold document_summary_tab.
  repeat (first [rewrite bind_draw | rewrite bind_call_get]; cbv beta; cbn [core page]).
  rewrite Hc.
  unfold call, st_warning, emit. rewrite emitted_after. cbn.
  now rewrite app_page.
Qed.

Lemma query_tab_with_client inp (r : Run W) c :
  ollama_client (session (core r)) = Some c ->
  query_tab inp r =
    (if generate_pressed inp
     then call (generate_ollama_response (user_prompt inp) (Some (system_prompt inp)))
     else script_ret tt)
      {| core := core r; page := page r ++ query_widgets |}.
Proof.
  intros Hc. unfold query_tab.
  repeat (first [rewrite bind_draw | rewrite bind_call_get]; cbv beta; cbn [core page]).
  rewrite Hc.
  repeat (first [rewrite bind_draw | rewrite bind_call_get]; cbv beta; cbn [core page]).
  unfold query_widgets. now rewrite !app_page.
Qed.

Lemma document_summary_tab_without_file inp (r : Run W) c :
  ollama_client (session (core r)) = Some c ->
  uploaded_file inp = Ok None ->
  document_summary_tab inp r =
    (Ok tt,
     {| core := core r;
        page := page r ++ upload_widgets
                ++ [WInfo "Please upload a document to summarize."] |}).
Proof.
  intros Hc Hf. unfold document_summary_tab.
  repeat (first [rewrite bind_draw | rewrite bind_call_get]; cbv beta; cbn [core page]).
  rewrite Hc.
  repeat (first [rewrite bind_draw | rewrite bind_call_get]; cbv beta; cbn [core page]).
  rewrite Hf, bind_file_uploader_ok. unfold draw, upload_widgets. cbn [core page].
  now rewrite <- !app_assoc.
Qed.

(** The upload control raises: the run stops there, under the header. *)
Lemma document_summary_tab_upload_refused inp (r : Run W) c e :
  ollama_client (session (core r)) = Some c ->
  uploaded_file inp = Raise e ->
  document_summary_tab inp r =
    (Raise e,
     {| core := core r; page := page r ++ [WHeader "Document Summary"] |}).
Proof.
  intros Hc Hf. unfold document_summary_tab.
  repeat (first [rewrite bind_draw | rewrite bind_call_get]; cbv beta; cbn [core page]).
  rewrite Hc.
  repeat (first [rewrite bind_draw | rewrite bind_call_get]; cbv beta; cbn [core page]).
  now rewrite Hf, bind_file_uploader_raises.
Qed.

(** A document that could not be read, or is empty: nothing follows the
    upload control but what the reader showed. *)
Lemma document_summary_tab_unread inp (r : Run W) c f document_content s' :
  ollama_client (session (core r)) = Some c ->
  uploaded_file inp = Ok (Some f) ->
  read_document_content f (core r) = (Ok document_content, s') ->
  truthy document_content = false ->
  document_summary_tab inp r =
    (Ok tt,
     {| core := s';
        page := page r ++ upload_widgets ++ (WShown <$> emitted (core r) s') |}).
Proof.
  intros Hc Hf Hread Hempty. unfold document_summary_tab.
  repeat (first [rewrite bind_draw | rewrite bind_call_get]; cbv beta; cbn [core page]).
  rewrite Hc.
  repeat (first [rewrite bind_draw | rewrite bind_call_get]; cbv beta; cbn [core page]).
  rewrite Hf, bind_file_uploader_ok.
  erewrite bind_call_ok by (cbn [core]; exact Hread). cbn [core page].
  unfold upload_widgets. rewrite <- !app_assoc. cbn [app].
  destruct document_content as [content|]; [|reflexivity].
  cbn in Hempty. apply negb_false_iff in Hempty. now rewrite Hempty.
Qed.

(** A document that was read and is not empty: the preview follows, and
    the request if the button was pressed. *)
Lemma document_summary_tab_read inp (r : Run W) c f content s' :
  ollama_client (session (core r)) = Some c ->
  uploaded_file inp = Ok (Some f) ->
  read_document_content f (core r) = (Ok (Some content), s') ->
  content <> "" ->
  document_summary_tab inp r =
    (if summary_pressed inp
     then call (generate_ollama_response (summary_user_prompt content)
                  (Some summary_system_prompt))
     else script_ret tt)
      {| core := s';
         page := page r ++ upload_widgets ++ (WShown <$> emitted (core r) s')
                 ++ preview_widgets content |}.
Proof.
  intros Hc Hf Hread Hne. unfold document_summary_tab.
  repeat (first [rewrite bind_draw | rewrite bind_call_get]; cbv beta; cbn [core page]).
  rewrite Hc.
  repeat (first [rewrite bind_draw | rewrite bind_call_get]; cbv beta; cbn [core page]).
  rewrite Hf, bind_file_uploader_ok.
  erewrite bind_call_ok by (cbn [core]; exact Hread). cbn [core page].
  rewrite (eqb_nonempty _ Hne).
  repeat (first [rewrite bind_draw | rewrite bind_call_get]; cbv beta; cbn [core page]).
  unfold upload_widgets, preview_widgets. now rewrite <- !app_assoc.
Qed.

Lemma after_advance ev (w : W) evs s :
  after ev (advance w evs s) = advance w (evs ++ [ev]) s.
Proof. unfold after, advance. cbn. now rewrite <- app_assoc. Qed.

(** A generation request either returns with the session it was given,
    or hands over to [update_connection]; before that it has made the
    request, once, if the prompt is not empty and a client is stored. *)
Lemma generate_ollama_response_shape up sp s :
  exists w evs,
    (generate_ollama_response up sp s = (Ok tt, advance w evs s)
     \/ generate_ollama_response up sp s = update_connection (advance w evs s))
    /\ (forall c, ollama_client (session s) = Some c -> up <> "" ->
        List.filter is_generate evs
        = [EvGenerate c (ollama_model (session s)) up (system_arg sp)])
    /\ (ollama_client (session s) = None \/ up = "" -> List.filter is_generate evs = [])
    /\ (up <> "" -> List.filter is_warning evs = []).
Proof.
  destruct (String.eqb_spec up "") as [-> | Hup].
  - exists (world s), [EvWarning "Please enter a prompt before generating."].
    split; [left; reflexivity|]. repeat split; try reflexivity; congruence.
  - destruct (ollama_client (session s)) as [c|] eqn:Hc.
    + destruct (Client_generate (client_host c) (ollama_model (session s)) up
                  (system_arg sp) (world s)) as [stream w] eqn:Hgen.
      rewrite (generate_ollama_response_run _ _ _ _ _ _ Hup Hc Hgen). cbv zeta.
      set (call := EvGenerate c (ollama_model (session s)) up (system_arg sp)).
      set (shown := EvMarkdown <$> texts_so_far "" (responses (chunks stream))).
      assert (Hg : forall tl, List.filter is_generate tl = [] ->
                List.filter is_generate ([EvEmpty; call] ++ shown ++ tl) = [call]).
      { intros tl Htl. cbn. f_equal. rewrite List.filter_app, Htl, app_nil_r.
        now apply filter_markdown_events. }
      assert (Hw : forall tl, List.filter is_warning tl = [] ->
                List.filter is_warning ([EvEmpty; call] ++ shown ++ tl) = []).
      { intros tl Htl. cbn. rewrite List.filter_app, Htl, app_nil_r.
        now apply filter_markdown_events. }
      exists w.
      destruct (failure stream) as [e|]; [|destruct sp as [t|]];
        rewrite ?after_advance; eexists;
        (split; [first [left; reflexivity | right; reflexivity]|]);
        rewrite <- ?app_assoc;
        (split; [intros c' [= <-] _; now apply Hg|]);
        (split; [intros [? | ?]; congruence|]);
        intros _; now apply Hw.
    + rewrite (generate_ollama_response_without_client _ _ _ Hup Hc).
      exists (world s). eexists.
      split; [right; rewrite (after_advance _ (world s) [EvEmpty] s); reflexivity|].
      repeat split; try reflexivity. discriminate.
Qed.

(** In all, a generation request returns normally, keeps host and model
    and coherence, and adds to the trace at most one request, made
    through the stored client. *)
Lemma generate_ollama_response_outcome up sp s :
  exists s' evs,
    generate_ollama_response up sp s = (Ok tt, s')
    /\ trace s' = trace s ++ evs
    /\ ollama_host (session s') = ollama_host (session s)
    /\ ollama_model (session s') = ollama_model (session s)
    /\ (coherent (session s) -> coherent (session s'))
    /\ (forall c, ollama_client (session s) = Some c -> up <> "" ->
        List.filter is_generate evs
        = [EvGenerate c (ollama_model (session s)) up (system_arg sp)])
    /\ (ollama_client (session s) = None \/ up = "" -> List.filter is_generate evs = [])
    /\ (up <> "" -> List.filter is_warning evs = []).
Proof.
  destruct (generate_ollama_response_shape up sp s)
    as (w & evs & [Hrun | Hrun] & Hg1 & Hg0 & Hw).
  - exists (advance w evs s), evs. rewrite Hrun. now repeat split.
  - destruct (update_connection_outcome (advance w evs s))
      as (s' & Hup & Hco & Hh & Hm & evs2 & Htr & Hatt).
    destruct (reconnect_attempt_quiet _ _ _ Hatt) as (Hg & _ & Hw2 & _).
    exists s', (evs ++ evs2). rewrite Hrun.
    split; [exact Hup|]. split; [rewrite Htr; cbn; now rewrite app_assoc|].
    split; [exact Hh|]. split; [exact Hm|]. split; [intros _; exact Hco|].
    split; [|split].
    + intros c Hc Hne. now rewrite List.filter_app, Hg, app_nil_r, (Hg1 c Hc Hne).
    + intros Hcase. now rewrite List.filter_app, Hg, app_nil_r, (Hg0 Hcase).
    + intros Hne. now rewrite List.filter_app, Hw2, app_nil_r, (Hw Hne).
Qed.

Lemma read_messages_are_no_requests (r : option string) (evs : list event) :
  match r with
  | Some _ => evs = []
  | None => exists msg, evs = [EvError msg] \/ evs = [EvWarning msg]
  end ->
  List.filter is_generate evs = [].
Proof.
  destruct r as [t|]; [now intros ->|].
  now intros (msg & [-> | ->]).
Qed.

(** One run of the script, from the state in which the main area is
    drawn: it raises only if the upload control does; the page starts with
    the sidebar, host and model stay, coherence stays, and at most one
    generation request is made, through the stored client and only if a
    button was pressed. *)
Lemma run_script_outcome inp s :
  exists res r' evs rest,
    run_script inp s = (res, r')
    /\ (res = Ok tt
        \/ exists e,
             tab_selection inp = "Document Summary"
             /\ uploaded_file inp = Raise e /\ res = Raise e)
    /\ trace (core r') = trace (after_sidebar inp s) ++ evs
    /\ page r' = sidebar_page (session s) (session (after_sidebar inp s))
                   (emitted s (after_sidebar inp s)) ++ rest
    /\ ollama_host (session (core r')) = ollama_host (session (after_sidebar inp s))
    /\ ollama_model (session (core r')) = ollama_model (session (after_sidebar inp s))
    /\ (coherent (session (after_sidebar inp s)) -> coherent (session (core r')))
    /\ (List.filter is_generate evs = []
        \/ exists c p sys,
             ollama_client (session (after_sidebar inp s)) = Some c
             /\ List.filter is_generate evs
                = [EvGenerate c (ollama_model (session (after_sidebar inp s))) p sys])
    /\ (generate_pressed inp = false -> summary_pressed inp = false ->
        List.filter is_generate evs = []).
Proof.
  rewrite run_script_sidebar.
  set (s1 := after_sidebar inp s).
  set (bar := sidebar_page (session s) (session s1) (emitted s s1)).
  set (Good := fun out : Result unit * Run W =>
    exists res r' evs rest,
      out = (res, r')
      /\ (res = Ok tt
          \/ exists e,
               tab_selection inp = "Document Summary"
               /\ uploaded_file inp = Raise e /\ res = Raise e)
      /\ trace (core r') = trace s1 ++ evs
      /\ page r' = bar ++ rest
      /\ ollama_host (session (core r')) = ollama_host (session s1)
      /\ ollama_model (session (core r')) = ollama_model (session s1)
      /\ (coherent (session s1) -> coherent (session (core r')))
      /\ (List.filter is_generate evs = []
          \/ exists c p sys,
               ollama_client (session s1) = Some c
               /\ List.filter is_generate evs
                  = [EvGenerate c (ollama_model (session s1)) p sys])
      /\ (generate_pressed inp = false -> summary_pressed inp = false ->
          List.filter is_generate evs = [])).
  change (Good ((if String.eqb (tab_selection inp) "Query" then query_tab inp
                 else if String.eqb (tab_selection inp) "Document Summary"
                      then document_summary_tab inp
                      else script_ret tt) {| core := s1; page := bar |})).
  assert (Hstay : forall rest, Good (Ok tt, {| core := s1; page := bar ++ rest |})).
  { intros rest. exists (Ok tt). eexists _, [], rest. cbn [core page].
    rewrite app_nil_r. repeat split; auto. }
  assert (Hwarn : forall rest,
    Good (Ok tt, {| core := after (EvWarning no_connection_warning) s1;
                    page := bar ++ rest |})).
  { intros rest. exists (Ok tt). eexists _, [EvWarning no_connection_warning], rest.
    cbn [core page]. repeat split; auto. }
  assert (Hgen : forall up sp rest c,
    ollama_client (session s1) = Some c ->
    generate_pressed inp = true \/ summary_pressed inp = true ->
    Good (call (generate_ollama_response up sp) {| core := s1; page := bar ++ rest |})).
  { intros up sp rest c Hc Hpressed.
    destruct (generate_ollama_response_outcome up sp s1)
      as (s' & evs & Hrun & Htr & Hh & Hm & Hco & Hg1 & Hg0 & _).
    erewrite call_run by (cbn [core]; exact Hrun). cbn [core page].
    exists (Ok tt). eexists _, evs, _. cbn [core page]. rewrite <- app_assoc.
    split; [reflexivity|]. split; [now left|].
    split; [exact Htr|]. split; [reflexivity|].
    split; [exact Hh|]. split; [exact Hm|]. split; [exact Hco|]. split.
    - destruct (String.eqb_spec up "") as [Hemp | Hne].
      + left. apply Hg0. now right.
      + right. exists c, up, (system_arg sp). split; [exact Hc|]. now apply Hg1.
    - intros Hg Hs. destruct Hpressed; congruence. }
  destruct (String.eqb (tab_selection inp) "Query");
    [|destruct (String.eqb_spec (tab_selection inp) "Document Summary") as [Htab|_]].
  - destruct (ollama_client (session s1)) as [c|] eqn:Hc.
    + rewrite (query_tab_with_client inp {| core := s1; page := bar |} c Hc).
      cbn [core page].
      destruct (generate_pressed inp) eqn:Hpress.
      * eapply Hgen; [reflexivity | now left].
      * apply Hstay.
    + rewrite (query_tab_without_client inp {| core := s1; page := bar |} Hc).
      cbn [core page]. apply Hwarn.
  - destruct (ollama_client (session s1)) as [c|] eqn:Hc.
    + destruct (uploaded_file inp) as [[f|]|e] eqn:Hf.
      * destruct (read_document_content_outcome f s1) as (dc & evs0 & Hread & Hshape).
        pose proof (read_messages_are_no_requests _ _ Hshape) as Hquiet.
        destruct (truthy dc) eqn:Htruthy.
        -- destruct dc as [content|]; [|discriminate]. subst evs0.
           rewrite advance_nothing in Hread.
           assert (Hne : content <> "").
           { intros ->. discriminate. }
           rewrite (document_summary_tab_read inp {| core := s1; page := bar |}
                      c f content s1 Hc Hf Hread Hne).
           cbn [core page]. rewrite emitted_nothing. cbn [fmap list_fmap app].
           destruct (summary_pressed inp) eqn:Hpress.
           ++ eapply Hgen; [reflexivity | now right].
           ++ apply Hstay.
        -- rewrite (document_summary_tab_unread inp {| core := s1; page := bar |}
                      c f dc _ Hc Hf Hread Htruthy).
           cbn [core page]. rewrite emitted_advance.
           exists (Ok tt). eexists _, evs0, _. cbn [core page].
           repeat split; auto.
      * rewrite (document_summary_tab_without_file inp {| core := s1; page := bar |}
                   c Hc Hf).
        cbn [core page]. apply Hstay.
      * rewrite (document_summary_tab_upload_refused inp {| core := s1; page := bar |}
                   c e Hc Hf).
        cbn [core page].
        exists (Raise e). eexists _, [], _. cbn [core page].
        rewrite app_nil_r.
        split; [reflexivity|]. split; [right; exists e; now repeat split|].
        repeat split; auto.
    + rewrite (document_summary_tab_without_client inp {| core := s1; page := bar |} Hc).
      cbn [core page]. apply Hwarn.
  - unfold script_ret. pose proof (Hstay []) as Hnothing.
    rewrite app_nil_r in Hnothing. exact Hnothing.
Qed.

Lemma request_to_from_filter h m (evs : list event) :
  Forall (request_to h m) (List.filter is_generate evs) -> Forall (request_to h m) evs.
Proof.
  induction evs as [|ev evs IH]; intros Hf; constructor.
  - destruct ev; cbn in *; try exact I. now inversion Hf.
  - apply IH. destruct ev; cbn in Hf; try exact Hf. now inversion Hf.
Qed.

Lemma emitted_through s s1 s2 evs1 evs2 :
  trace s1 = trace s ++ evs1 -> trace s2 = trace s1 ++ evs2 ->
  emitted s s2 = evs1 ++ evs2.
Proof. intros E1 E2. apply emitted_app. now rewrite E2, E1, app_assoc. Qed.

Lemma initial_session_coherent : coherent initial_session.
Proof. unfold coherent. cbn. discriminate. Qed.

Lemma run_script_keeps_coherence inp s :
  coherent (session s) ->
  coherent (session (core (snd (run_script inp s)))).
Proof.
  intros Hco.
  destruct (run_script_outcome inp s)
    as (res & r' & evs & rest & Hrun & _ & _ & _ & _ & _ & Hkeep & _).
  rewrite Hrun. cbn [snd].
  apply Hkeep. now apply (proj1 (after_sidebar_outcome inp s)).
Qed.

Lemma reruns_keep_coherence inputs s :
  coherent (session s) -> coherent (session (reruns inputs s)).
Proof.
  revert s. induction inputs as [|inp inputs IH]; intros s Hco; [exact Hco|].
  cbn [reruns]. apply IH. now apply run_script_keeps_coherence.
Qed.

(** X11. From the session state of lines 7-16, whatever the user does
    over any number of runs of the script (connects that fail or succeed,
    generations that fail, uploads, also uploads that the upload control
    refuses by raising), the session state stays coherent: a client is
    stored exactly with the status [Connected] and is bound to the
    configured host.  And the next run returns normally unless its upload
    control raises in the Document Summary tab, in which case that
    exception, and no other, leaves the script. *)
Theorem session_stays_coherent inputs inp (w : W) n tr :
  coherent (session (reruns inputs
              {| session := initial_session; world := w; next_id := n; trace := tr |}))
  /\ (fst (run_script inp
             (reruns inputs
                {| session := initial_session; world := w; next_id := n; trace := tr |}))
      = Ok tt
      \/ exists e,
           tab_selection inp = "Document Summary"
           /\ uploaded_file inp = Raise e
           /\ fst (run_script inp
                     (reruns inputs
                        {| session := initial_session; world := w;
                           next_id := n; trace := tr |}))
              = Raise e).
Proof.
  split.
  - apply reruns_keep_coherence. exact initial_session_coherent.
  - destruct (run_script_outcome inp
                (reruns inputs
                   {| session := initial_session; world := w; next_id := n; trace := tr |}))
      as (res & r' & evs & rest & Hrun & [-> | (e & Htab & Hup & ->)] & _).
    + left. now rewrite Hrun.
    + right. exists e. now rewrite Hrun.
Qed.

(** X12. In a run that starts from a coherent session, whether it returns
    or is cut short by the upload control, at most one generation request
    is made, and it goes through a client bound to the host, and for the
    model, that the session holds when the run ends: the ones connected
    to, never ones merely typed into the sidebar. *)
Theorem requests_go_to_configured_host inp s :
  coherent (session s) ->
  Forall (request_to (ollama_host (session (core (snd (run_script inp s)))))
                     (ollama_model (session (core (snd (run_script inp s))))))
    (emitted s (core (snd (run_script inp s))))
  /\ length (List.filter is_generate (emitted s (core (snd (run_script inp s))))) <= 1.
Proof.
  intros Hco.
  destruct (after_sidebar_outcome inp s) as (Hco1 & evs1 & Htr1 & Hg1 & _).
  specialize (Hco1 Hco).
  destruct (run_script_outcome inp s)
    as (res & r' & evs & rest & Hrun & _ & Htr & _ & Hh & Hm & _ & Hreq & _).
  rewrite Hrun. cbn [snd].
  rewrite (emitted_through _ _ _ _ _ Htr1 Htr).
  assert (Hfilter : List.filter is_generate (evs1 ++ evs) = List.filter is_generate evs).
  { now rewrite List.filter_app, Hg1. }
  split.
  - apply request_to_from_filter. rewrite Hfilter.
    destruct Hreq as [-> | (c & p & sys & Hc & ->)]; [constructor|].
    constructor; [|constructor]. cbn. rewrite Hh, Hm. split; [|reflexivity].
    unfold coherent in Hco1. rewrite Hc in Hco1. apply Hco1.
  - rewrite Hfilter.
    destruct Hreq as [-> | (c & p & sys & _ & ->)]; cbn; lia.
Qed.

(** X13. When no client is stored once the sidebar is done (none was
    stored and Connect was not pressed, or the connect just failed),
    neither tab does anything but warn: whatever is typed, uploaded or
    pressed, no document is read and no generation request is made. *)
Theorem no_client_only_warning inp s :
  ollama_client (session (after_sidebar inp s)) = None ->
  exists r',
    run_script inp s = (Ok tt, r')
    /\ session (core r') = session (after_sidebar inp s)
    /\ world (core r') = world (after_sidebar inp s)
    /\ emitted (after_sidebar inp s) (core r')
       = (if String.eqb (tab_selection inp) "Query"
             || String.eqb (tab_selection inp) "Document Summary"
          then [EvWarning no_connection_warning] else [])
    /\ List.filter is_generate (emitted s (core r')) = [].
Proof.
  intros Hc.
  destruct (after_sidebar_outcome inp s) as (_ & evs1 & Htr1 & Hg1 & _).
  rewrite run_script_sidebar.
  destruct (String.eqb (tab_selection inp) "Query");
    [|destruct (String.eqb (tab_selection inp) "Document Summary")]; cbn [orb].
  - rewrite query_tab_without_client by exact Hc.
    eexists. split; [reflexivity|]. cbn [core].
    rewrite emitted_after. repeat split.
    erewrite emitted_through by (exact Htr1 || reflexivity).
    now rewrite List.filter_app, Hg1.
  - rewrite document_summary_tab_without_client by exact Hc.
    eexists. split; [reflexivity|]. cbn [core].
    rewrite emitted_after. repeat split.
    erewrite emitted_through by (exact Htr1 || reflexivity).
    now rewrite List.filter_app, Hg1.
  - eexists. split; [reflexivity|]. cbn [core].
    rewrite emitted_nothing. repeat split.
    rewrite (emitted_app _ _ _ Htr1). exact Hg1.
Qed.

(** X14. A run in which neither Generate Response nor Generate Summary is
    pressed makes no generation request, whatever else happens in it
    (connecting, switching tabs, uploading a document). *)
Theorem no_button_no_request inp s :
  generate_pressed inp = false ->
  summary_pressed inp = false ->
  List.filter is_generate (emitted s (core (snd (run_script inp s)))) = [].
Proof.
  intros Hg Hs.
  destruct (after_sidebar_outcome inp s) as (_ & evs1 & Htr1 & Hg1 & _).
  destruct (run_script_outcome inp s)
    as (res & r' & evs & rest & Hrun & _ & Htr & _ & _ & _ & _ & _ & Hquiet).
  rewrite Hrun. cbn [snd].
  rewrite (emitted_through _ _ _ _ _ Htr1 Htr).
  now rewrite List.filter_app, Hg1, (Hquiet Hg Hs).
Qed.

Lemma summary_user_prompt_nonempty content : summary_user_prompt content <> "".
Proof. unfold summary_user_prompt. rewrite append_cons. discriminate. Qed.

Lemma read_text_keeps_state f s content :
  fst (read_document_content f s) = Ok (Some content) ->
  read_document_content f s = (Ok (Some content), s).
Proof.
  destruct (read_document_content_outcome f s) as (r & evs & Hread & Hshape).
  rewrite Hread. cbn [fst]. intros [= ->]. subst evs. now rewrite advance_nothing.
Qed.

(** X15. In the Document Summary tab, with a client stored, a document
    that was read as a non-empty text, and Generate Summary pressed: the
    preview shows the text, and one generation request is made whose
    prompt is the fixed instruction, a blank line, and the whole text, and
    whose system prompt is the fixed summarizer instruction.  The
    empty-prompt warning cannot occur on this path. *)
Theorem summary_request_carries_document inp s c f content :
  tab_selection inp = "Document Summary" ->
  ollama_client (session (after_sidebar inp s)) = Some c ->
  uploaded_file inp = Ok (Some f) ->
  fst (read_document_content f (after_sidebar inp s)) = Ok (Some content) ->
  content <> "" ->
  summary_pressed inp = true ->
  exists r',
    run_script inp s = (Ok tt, r')
    /\ List.filter is_generate (emitted (after_sidebar inp s) (core r'))
       = [EvGenerate c (ollama_model (session (after_sidebar inp s)))
            ("Analyze this document and produce an accurate and concise summary:"
             +:+ nl +:+ nl +:+ content)
            (Some summary_system_prompt)]
    /\ List.filter is_warning (emitted (after_sidebar inp s) (core r')) = []
    /\ page r'
       = sidebar_page (session s) (session (after_sidebar inp s))
           (emitted s (after_sidebar inp s))
         ++ upload_widgets ++ preview_widgets content
         ++ (WShown <$> emitted (after_sidebar inp s) (core r')).
Proof.
  intros Htab Hc Hf Hread Hne Hpress.
  apply read_text_keeps_state in Hread.
  rewrite run_script_sidebar, Htab.
  change (String.eqb "Document Summary" "Query") with false.
  change (String.eqb "Document Summary" "Document Summary") with true. cbv iota.
  set (s1 := after_sidebar inp s) in *.
  set (bar := sidebar_page (session s) (session s1) (emitted s s1)).
  rewrite (document_summary_tab_read inp {| core := s1; page := bar |}
             c f content s1 Hc Hf Hread Hne).
  cbn [core page]. rewrite emitted_nothing, Hpress. cbn [fmap list_fmap app].
  destruct (generate_ollama_response_outcome (summary_user_prompt content)
              (Some summary_system_prompt) s1)
    as (s' & evs & Hrun & Htr & _ & _ & _ & Hg1 & _ & Hw).
  erewrite call_run by (cbn [core]; exact Hrun). cbn [core page].
  eexists. split; [reflexivity|]. cbn [core page].
  rewrite (emitted_app _ _ _ Htr).
  split; [|split].
  - exact (Hg1 c Hc (summary_user_prompt_nonempty content)).
  - exact (Hw (summary_user_prompt_nonempty content)).
  - now rewrite <- !app_assoc.
Qed.

(** X16. A document that is read as the empty text (an empty text file, a
    PDF without text) is dropped without a word: in the Document Summary
    tab nothing follows the upload control, no preview, no button and no
    message, and the state is as after the sidebar. *)
Theorem empty_document_is_dropped_silently inp s c f :
  tab_selection inp = "Document Summary" ->
  ollama_client (session (after_sidebar inp s)) = Some c ->
  uploaded_file inp = Ok (Some f) ->
  fst (read_document_content f (after_sidebar inp s)) = Ok (Some "") ->
  run_script inp s
  = (Ok tt,
     {| core := after_sidebar inp s;
        page := sidebar_page (session s) (session (after_sidebar inp s))
                  (emitted s (after_sidebar inp s))
                ++ upload_widgets |}).
Proof.
  intros Htab Hc Hf Hread.
  apply read_text_keeps_state in Hread.
  rewrite run_script_sidebar, Htab.
  change (String.eqb "Document Summary" "Query") with false.
  change (String.eqb "Document Summary" "Document Summary") with true. cbv iota.
  set (s1 := after_sidebar inp s) in *.
  set (bar := sidebar_page (session s) (session s1) (emitted s s1)).
  rewrite (document_summary_tab_unread inp {| core := s1; page := bar |}
             c f (Some "") s1 Hc Hf Hread eq_refl).
  cbn [core page]. rewrite emitted_nothing. cbn [fmap list_fmap].
  now rewrite app_nil_r.
Qed.

(** X17. In a run that starts from a coherent session, whether it
    returns or is cut short by the upload control, the page begins with
    the sidebar, whose two text inputs show the host and model the session
    held when the run started, and whose status line is green exactly when
    a client is stored once the Connect button has been dealt with. *)
Theorem status_line_tells_connection inp s :
  coherent (session s) ->
  (exists rest,
     page (snd (run_script inp s))
     = sidebar_page (session s) (session (after_sidebar inp s))
         (emitted s (after_sidebar inp s))
       ++ rest)
  /\ (status_color (connection_status (session (after_sidebar inp s))) = "green"
      <-> ollama_client (session (after_sidebar inp s)) <> None).
Proof.
  intros Hco.
  pose proof (proj1 (after_sidebar_outcome inp s) Hco) as Hco1.
  destruct (run_script_outcome inp s)
    as (res & r' & evs & rest & Hrun & _ & _ & Hpage & _).
  split; [exists rest; now rewrite Hrun|].
  unfold status_color, coherent in *.
  destruct (String.eqb_spec (connection_status (session (after_sidebar inp s))) "Connected")
    as [Hst | Hst];
    destruct (ollama_client (session (after_sidebar inp s))) as [c|].
  - split; [discriminate | reflexivity].
  - contradiction.
  - destruct Hco1 as (_ & Hyes & _). contradiction.
  - split; [discriminate | intros Habs; now contradiction Habs].
Qed.

(** X18. In the Query tab, with a client stored and Generate Response
    pressed, what was typed is passed on as it is: a non-empty user prompt
    goes out in one request with the typed system prompt (or none if that
    was left empty); an empty user prompt gives the warning and nothing
    else, the state being as after the sidebar. *)
Theorem query_passes_typed_prompts inp s c :
  tab_selection inp = "Query" ->
  ollama_client (session (after_sidebar inp s)) = Some c ->
  generate_pressed inp = true ->
  (user_prompt inp <> "" ->
   List.filter is_generate (emitted (after_sidebar inp s) (core (snd (run_script inp s))))
   = [EvGenerate c (ollama_model (session (after_sidebar inp s))) (user_prompt inp)
        (if String.eqb (system_prompt inp) "" then None else Some (system_prompt inp))])
  /\ (user_prompt inp = "" ->
      run_script inp s
      = (Ok tt,
         {| core := after (EvWarning "Please enter a prompt before generating.")
                      (after_sidebar inp s);
            page := sidebar_page (session s) (session (after_sidebar inp s))
                      (emitted s (after_sidebar inp s))
                    ++ query_widgets
                    ++ [WShown (EvWarning "Please enter a prompt before generating.")] |})).
Proof.
  intros Htab Hc Hpress.
  rewrite run_script_sidebar, Htab.
  change (String.eqb "Query" "Query") with true. cbv iota.
  set (s1 := after_sidebar inp s) in *.
  set (bar := sidebar_page (session s) (session s1) (emitted s s1)).
  rewrite (query_tab_with_client inp {| core := s1; page := bar |} c Hc), Hpress.
  cbn [core page]. split.
  - intros Hne.
    destruct (generate_ollama_response_outcome (user_prompt inp)
                (Some (system_prompt inp)) s1)
      as (s' & evs & Hrun & Htr & _ & _ & _ & Hg1 & _).
    erewrite call_run by (cbn [core]; exact Hrun). cbn [snd core].
    rewrite (emitted_app _ _ _ Htr), (Hg1 c Hc Hne).
    unfold system_arg, truthy. now destruct (String.eqb (system_prompt inp) "").
  - intros Hemp. unfold call. cbn [core page]. rewrite Hemp.
    unfold generate_ollama_response. cbn [String.eqb].
    unfold st_warning, emit. rewrite emitted_after. cbn [fmap list_fmap].
    now rewrite <- app_assoc.
Qed.

(** X19. What is typed into the host and model fields has no effect
    until Connect is pressed: after a run without that press, whatever
    else was done in it and whether it returned or was cut short by the
    upload control, the session holds the host and model it held
    before. *)
Theorem typed_configuration_waits_for_connect inp s :
  connect_pressed inp = false ->
  ollama_host (session (core (snd (run_script inp s)))) = ollama_host (session s)
  /\ ollama_model (session (core (snd (run_script inp s)))) = ollama_model (session s).
Proof.
  intros Hidle.
  destruct (run_script_outcome inp s)
    as (res & r' & evs & rest & Hrun & _ & _ & _ & Hh & Hm & _).
  rewrite Hrun. cbn [snd].
  unfold after_sidebar in Hh, Hm. rewrite Hidle in Hh, Hm. now split.
Qed.

End FurtherProperties.

(** ** The properties at work on the scripted server *)

#[local] Existing Instances scripted_server utf8_codec mini_pdf.

Lemma stream_error_reconnects_once_example :
  exists s',
    generate_ollama_response "crash" (Some "Be brief.") (start connected_session)
    = (Ok tt, s')
    /\ emitted (start connected_session) s'
       = [EvEmpty;
          EvGenerate {| client_host := "http://localhost:11434"; client_id := 1 |}
            "llama3.2" "crash" (Some "Be brief.");
          EvMarkdown "Hel";
          EvError "An error occurred while generating: peer closed connection";
          EvClient "http://localhost:11434";
          EvShow {| client_host := "http://localhost:11434"; client_id := 2 |} "llama3.2";
          EvClient "http://localhost:11434"]
    /\ length (List.filter is_generate (emitted (start connected_session) s')) = 1.
Proof.
  destruct (stream_error_reconnects_once
              "crash" (Some "Be brief.") (start connected_session) _ _ _ _
              ltac:(discriminate) eq_refl eq_refl eq_refl)
    as (s' & evs & Hrun & _ & _ & _ & Hone & _).
  exists s'. split; [exact Hrun|]. split; [|exact Hone].
  vm_compute in Hrun. injection Hrun as <-. reflexivity.
Defined.

Lemma connect_failure_is_caught_example :
  exists s',
    connect "http://localhost:11434" "phi4" (start connected_session) = (Ok tt, s')
    /\ connection_status (session s')
       = "Connection Failed: Unexpected error: model 'phi4' not found"
    /\ ollama_client (session s') = None.
Proof.
  destruct (connect_failure_is_caught (srv := scripted_server)
              "http://localhost:11434" "phi4" (start connected_session)
              (Exception "model 'phi4' not found")
              ltac:(right; split; reflexivity))
    as (s' & Hrun & _ & _ & Hstatus & _ & Hclient).
  exists s'. split; [exact Hrun|]. split; [exact Hstatus | exact Hclient].
Defined.

Lemma yields_full_text_so_far_example :
  markdowns (emitted (start connected_session)
               (snd (generate_ollama_response "Say hello" (Some "Be brief.")
                       (start connected_session))))
  = ["Hel"; "Hello"].
Proof.
  exact (yields_full_text_so_far
           "Say hello" (Some "Be brief.") (start connected_session) _ _ _
           ltac:(discriminate) eq_refl eq_refl).
Defined.

Lemma pdf_text_is_all_pages_in_order_example :
  read_document_content {| name := "report.PDF"; data := two_page_document |}
    (start connected_session)
  = (Ok (Some "Hello, world"), start connected_session).
Proof.
  exact (proj1 (pdf_text_is_all_pages_in_order
                  {| name := "report.PDF"; data := two_page_document |}
                  (start connected_session) eq_refl)
           [bytes_of "Hello, "; bytes_of "world"] ["Hello, "; "world"] eq_refl eq_refl).
Defined.

Lemma text_file_is_decoded_or_refused_example :
  read_document_content {| name := "notes.txt"; data := bytes_of "plain text" |}
    (start connected_session)
  = (Ok (Some "plain text"), start connected_session)
  /\ read_document_content {| name := "notes.txt"; data := invalid_utf8 |}
       (start connected_session)
     = (Ok None,
        after (EvError "Error reading text-based content: 'utf-8' codec can't decode bytes: invalid data")
          (start connected_session)).
Proof.
  split.
  - exact (proj1 (text_file_is_decoded_or_refused
                    {| name := "notes.txt"; data := bytes_of "plain text" |}
                    (start connected_session)
                    ltac:(apply (bool_decide_unpack _); vm_compute; exact I))
             "plain text" eq_refl).
  - exact (proj2 (text_file_is_decoded_or_refused
                    {| name := "notes.txt"; data := invalid_utf8 |}
                    (start connected_session)
                    ltac:(apply (bool_decide_unpack _); vm_compute; exact I))
             (Exception "'utf-8' codec can't decode bytes: invalid data") eq_refl).
Defined.

Lemma unsupported_extension_is_refused_example :
  read_document_content {| name := "image.png"; data := bytes_of "any bytes" |}
    (start connected_session)
  = (Ok None, after (EvWarning unsupported_message) (start connected_session))
  /\ read_document_content {| name := "IMAGE.PNG"; data := bytes_of "any bytes" |}
       (start connected_session)
     = (Ok None, after (EvWarning unsupported_message) (start connected_session)).
Proof.
  split.
  - apply (proj1 (unsupported_extension_is_refused (W := nat)
                    {| name := "image.png"; data := bytes_of "any bytes" |}
                    "i"%char "mage" "png" (start connected_session)
                    eq_refl ltac:(discriminate)
                    ltac:(apply (bool_decide_unpack _); vm_compute; exact I)
                    ltac:(apply (bool_decide_unpack _); vm_compute; exact I))).
    apply (bool_decide_unpack _). vm_compute. exact I.
  - apply (proj1 (unsupported_extension_is_refused (W := nat)
                    {| name := "IMAGE.PNG"; data := bytes_of "any bytes" |}
                    "I"%char "MAGE" "PNG" (start connected_session)
                    eq_refl ltac:(discriminate)
                    ltac:(apply (bool_decide_unpack _); vm_compute; exact I)
                    ltac:(apply (bool_decide_unpack _); vm_compute; exact I))).
    apply (bool_decide_unpack _). vm_compute. exact I.
Defined.

Lemma connect_success_stores_fresh_client_example :
  exists s',
    connect "http://localhost:11434" "llama3.2" (start initial_session) = (Ok tt, s')
    /\ ollama_client (session s')
       = Some {| client_host := "http://localhost:11434"; client_id := 3 |}
    /\ connection_status (session s') = "Connected".
Proof.
  destruct (connect_success_stores_fresh_client (srv := scripted_server)
              "http://localhost:11434" "llama3.2" (start initial_session)
              ltac:(reflexivity) ltac:(reflexivity))
    as (s' & Hrun & _ & _ & _ & _ & Hclient & Hstatus & _).
  exists s'. split; [exact Hrun|]. split; [exact Hclient | exact Hstatus].
Defined.

Lemma empty_system_prompt_is_omitted_example :
  List.filter is_generate
    (emitted (start connected_session)
       (snd (generate_ollama_response "Say hello" (Some "") (start connected_session))))
  = [EvGenerate {| client_host := "http://localhost:11434"; client_id := 1 |}
       "llama3.2" "Say hello" None].
Proof.
  pose proof (proj1 (empty_system_prompt_is_omitted (srv := scripted_server)
                       "Say hello" (Some "") (start connected_session)
                       {| client_host := "http://localhost:11434"; client_id := 1 |}
                       ltac:(discriminate) eq_refl)) as Hsent.
  exact Hsent.
Defined.

Lemma whitespace_prompt_is_sent_example :
  List.filter is_generate
    (emitted (start connected_session)
       (snd (generate_ollama_response " " (Some "Be brief.") (start connected_session))))
  = [EvGenerate {| client_host := "http://localhost:11434"; client_id := 1 |}
       "llama3.2" " " (Some "Be brief.")].
Proof.
  assert (Hspace : whitespace_only " ").
  { split; [discriminate | repeat constructor]. }
  pose proof (proj2 (proj2 (whitespace_prompt_is_sent (srv := scripted_server)
                              " " (Some "Be brief.") (start connected_session) Hspace))
                {| client_host := "http://localhost:11434"; client_id := 1 |} eq_refl)
    as Hsent.
  exact Hsent.
Defined.

(** ** The further properties at work on the scripted server *)

Lemma failed_connect_is_not_rolled_back_example :
  session (snd (connect "http://localhost:11434" "phi4" (start connected_session)))
  = {| ollama_host := "http://localhost:11434";
       ollama_model := "phi4";
       ollama_client := None;
       connection_status := "Connection Failed: Unexpected error: model 'phi4' not found";
       last_successful_config :=
         Some {| host := "http://localhost:11434"; model := "llama3.2" |} |}.
Proof.
  pose proof (failed_connect_is_not_rolled_back (srv := scripted_server)
                "http://localhost:11434" "phi4" (start connected_session)
                (Exception "model 'phi4' not found")
                ltac:(right; split; reflexivity)) as Hkept.
  exact Hkept.
Defined.

Lemma generation_without_client_reconnects_example :
  exists s',
    generate_ollama_response "Say hello" (Some "Be brief.") (start initial_session)
    = (Ok tt, s')
    /\ List.filter is_generate (emitted (start initial_session) s') = [].
Proof.
  destruct (generation_without_client_reconnects (srv := scripted_server)
              "Say hello" (Some "Be brief.") (start initial_session)
              ltac:(discriminate) eq_refl)
    as (s' & evs & Hrun & _ & _ & Hnone & _).
  exists s'. split; [exact Hrun | exact Hnone].
Defined.

Lemma successful_generation_keeps_session_example :
  exists s',
    generate_ollama_response "Say hello" (Some "Be brief.") (start connected_session)
    = (Ok tt, s')
    /\ session s' = connected_session.
Proof.
  destruct (successful_generation_keeps_session (srv := scripted_server)
              "Say hello" "Be brief." (start connected_session) stored_client _ _
              ltac:(discriminate) eq_refl eq_refl eq_refl)
    as (s' & Hrun & Hsession & _).
  exists s'. split; [exact Hrun | exact Hsession].
Defined.

Lemma missing_system_prompt_ends_in_error_example :
  exists s',
    generate_ollama_response "Say hello" None (start connected_session) = (Ok tt, s')
    /\ List.filter is_error (emitted (start connected_session) s')
       = [EvError "An error occurred while generating: object of type 'NoneType' has no len()"].
Proof.
  destruct (missing_system_prompt_ends_in_error (srv := scripted_server)
              "Say hello" (start connected_session) stored_client _ _
              ltac:(discriminate) eq_refl eq_refl eq_refl)
    as (s' & evs & Hrun & _ & _).
  exists s'. split; [exact Hrun|].
  vm_compute in Hrun. injection Hrun as <-. reflexivity.
Defined.

Lemma stream_error_outcome_follows_probe_example :
  session (snd (generate_ollama_response "crash" (Some "Be brief.")
                  (start connected_session)))
  = {| ollama_host := "http://localhost:11434";
       ollama_model := "llama3.2";
       ollama_client := Some {| client_host := "http://localhost:11434"; client_id := 3 |};
       connection_status := "Connected";
       last_successful_config :=
         Some {| host := "http://localhost:11434"; model := "llama3.2" |} |}.
Proof.
  pose proof (proj1 (stream_error_outcome_follows_probe (srv := scripted_server)
                       "crash" (Some "Be brief.") (start connected_session)
                       stored_client _ _ _
                       ltac:(discriminate) eq_refl eq_refl eq_refl eq_refl)
                eq_refl) as Hhealed.
  exact Hhealed.
Defined.

Lemma name_without_dot_is_unsupported_example :
  read_document_content {| name := "README"; data := bytes_of "plain text" |}
    (start connected_session)
  = (Ok None, after (EvWarning unsupported_message) (start connected_session)).
Proof.
  pose proof (name_without_dot_is_unsupported (W := nat)
                {| name := "README"; data := bytes_of "plain text" |}
                (start connected_session)
                ltac:(apply (bool_decide_unpack _); vm_compute; exact I)) as Hrefused.
  exact Hrefused.
Defined.

Lemma hidden_name_is_unsupported_example :
  read_document_content {| name := ".txt"; data := bytes_of "plain text" |}
    (start connected_session)
  = (Ok None, after (EvWarning unsupported_message) (start connected_session)).
Proof.
  pose proof (hidden_name_is_unsupported (W := nat)
                {| name := ".txt"; data := bytes_of "plain text" |} "txt"
                (start connected_session) eq_refl
                ltac:(apply (bool_decide_unpack _); vm_compute; exact I)
                ltac:(apply (bool_decide_unpack _); vm_compute; exact I)) as Hrefused.
  exact Hrefused.
Defined.

Lemma extension_of_ordinary_name_example :
  file_extension_of {| name := "Report.PDF"; data := two_page_document |} = ".pdf".
Proof.
  pose proof (extension_of_ordinary_name
                {| name := "Report.PDF"; data := two_page_document |}
                "R"%char "eport" "PDF" eq_refl ltac:(discriminate)
                ltac:(apply (bool_decide_unpack _); vm_compute; exact I)
                ltac:(apply (bool_decide_unpack _); vm_compute; exact I)
                ltac:(repeat constructor)) as Hext.
  exact Hext.
Defined.

Lemma requests_go_to_configured_host_example :
  Forall (request_to "http://localhost:11434" "llama3.2")
    (emitted (start connected_session)
       (core (snd (run_script (ask "Say hello") (start connected_session)))))
  /\ Forall (request_to "http://localhost:11434" "llama3.2")
       (emitted (start connected_session)
          (core (snd (run_script refused_upload (start connected_session))))).
Proof.
  pose proof (proj1 (requests_go_to_configured_host (srv := scripted_server)
                       (codec := utf8_codec) (pdf := mini_pdf)
                       (ask "Say hello") (start connected_session)
                       ltac:(vm_compute; repeat split))) as Hasked.
  pose proof (proj1 (requests_go_to_configured_host (srv := scripted_server)
                       (codec := utf8_codec) (pdf := mini_pdf)
                       refused_upload (start connected_session)
                       ltac:(vm_compute; repeat split))) as Hrefused.
  split; [exact Hasked | exact Hrefused].
Defined.

Lemma no_client_only_warning_example :
  exists r',
    run_script (ask "Say hello") (start initial_session) = (Ok tt, r')
    /\ emitted (start initial_session) (core r') = [EvWarning no_connection_warning].
Proof.
  destruct (no_client_only_warning (srv := scripted_server)
              (codec := utf8_codec) (pdf := mini_pdf)
              (ask "Say hello") (start initial_session) eq_refl)
    as (r' & Hrun & _ & _ & Hwarned & _).
  exists r'. split; [exact Hrun | exact Hwarned].
Defined.

Lemma no_button_no_request_example :
  List.filter is_generate
    (emitted (start initial_session)
       (core (snd (run_script (connect_to "http://localhost:11434" "llama3.2")
                     (start initial_session)))))
  = [].
Proof.
  pose proof (no_button_no_request (srv := scripted_server)
                (codec := utf8_codec) (pdf := mini_pdf)
                (connect_to "http://localhost:11434" "llama3.2")
                (start initial_session) eq_refl eq_refl) as Hquiet.
  exact Hquiet.
Defined.

Lemma summary_request_carries_document_example :
  exists r',
    run_script (summarize {| name := "report.pdf"; data := two_page_document |})
      (start connected_session)
    = (Ok tt, r')
    /\ List.filter is_generate (emitted (start connected_session) (core r'))
       = [EvGenerate stored_client "llama3.2"
            ("Analyze this document and produce an accurate and concise summary:"
             +:+ nl +:+ nl +:+ "Hello, world")
            (Some summary_system_prompt)].
Proof.
  destruct (summary_request_carries_document (srv := scripted_server)
              (codec := utf8_codec) (pdf := mini_pdf)
              (summarize {| name := "report.pdf"; data := two_page_document |})
              (start connected_session) stored_client
              {| name := "report.pdf"; data := two_page_document |} "Hello, world"
              eq_refl eq_refl eq_refl eq_refl ltac:(discriminate) eq_refl)
    as (r' & Hrun & Hsent & _).
  exists r'. split; [exact Hrun | exact Hsent].
Defined.

Lemma empty_document_is_dropped_silently_example :
  run_script (summarize {| name := "empty.txt"; data := [] |}) (start connected_session)
  = (Ok tt,
     {| core := start connected_session;
        page := sidebar_page connected_session connected_session [] ++ upload_widgets |}).
Proof.
  pose proof (empty_document_is_dropped_silently (srv := scripted_server)
                (codec := utf8_codec) (pdf := mini_pdf)
                (summarize {| name := "empty.txt"; data := [] |})
                (start connected_session) stored_client
                {| name := "empty.txt"; data := [] |}
                eq_refl eq_refl eq_refl eq_refl) as Hdropped.
  exact Hdropped.
Defined.

Lemma status_line_tells_connection_example :
  exists rest,
    page (snd (run_script (connect_to "http://localhost:11434" "phi4")
                 (start connected_session)))
    = sidebar_page connected_session
        (session (after_sidebar (connect_to "http://localhost:11434" "phi4")
                    (start connected_session)))
        (emitted (start connected_session)
           (after_sidebar (connect_to "http://localhost:11434" "phi4")
              (start connected_session)))
      ++ rest.
Proof.
  destruct (status_line_tells_connection (srv := scripted_server)
              (codec := utf8_codec) (pdf := mini_pdf)
              (connect_to "http://localhost:11434" "phi4") (start connected_session)
              ltac:(vm_compute; repeat split))
    as ((rest & Hpage) & _).
  exists rest. exact Hpage.
Defined.

Lemma query_passes_typed_prompts_example :
  List.filter is_generate
    (emitted (start connected_session)
       (core (snd (run_script (ask "Say hello") (start connected_session)))))
  = [EvGenerate stored_client "llama3.2" "Say hello"
       (Some "You are a helpful AI assistant.")].
Proof.
  pose proof (proj1 (query_passes_typed_prompts (srv := scripted_server)
                       (codec := utf8_codec) (pdf := mini_pdf)
                       (ask "Say hello") (start connected_session) stored_client
                       eq_refl eq_refl eq_refl)
                ltac:(discriminate)) as Hsent.
  exact Hsent.
Defined.

Lemma typed_configuration_waits_for_connect_example :
  run_script refused_upload (start connected_session)
  = (Raise (Exception "Invalid file extension: `.png`."),
     {| core := start connected_session;
        page := sidebar_page connected_session connected_session []
                ++ [WHeader "Document Summary"] |})
  /\ ollama_host (session (core (snd (run_script refused_upload
                                        (start connected_session)))))
     = "http://localhost:11434"
  /\ ollama_model (session (core (snd (run_script refused_upload
                                         (start connected_session)))))
     = "llama3.2".
Proof.
  split; [reflexivity|].
  pose proof (typed_configuration_waits_for_connect (srv := scripted_server)
                (codec := utf8_codec) (pdf := mini_pdf)
                refused_upload (start connected_session) eq_refl) as Hkept.
  exact Hkept.
Defined.
